(** * SecureBank fintech chatbot ([chatbot.py]): model and verified properties

    The development follows the layout of the Python module:
    text primitives and the [re] operations the module calls, the
    [SecurityValidator], the [IntentClassifier], the [ResponseGenerator]
    and the [FintechChatbot] orchestrator with its session store.

    Text.  A Python [str] is modelled by [string], read as a sequence of
    code points below 256 (the Latin-1 block); character classes
    ([str.isspace], [str.lower], the regex classes [\d] and [\w]) are the
    restrictions of Python's Unicode tables to that block. *)

From Stdlib Require Import ZArith NArith List Ascii String Bool Lia SpecFloat.
From stdpp Require Import gmap strings fin_maps.

Import ListNotations.
Local Open Scope string_scope.
Local Open Scope list_scope.

Set Default Proof Using "Type".

(** ** Text primitives *)

Module Text.

Definition chars (s : string) : list ascii := list_ascii_of_string s.
Definition str (l : list ascii) : string := string_of_list_ascii l.

Definition code (c : ascii) : N := N_of_ascii c.

Definition in_range (lo hi : N) (c : ascii) : bool :=
  ((lo <=? code c) && (code c <=? hi))%N.

(** [\d] of [re] on [str] patterns, and [str.isdecimal]. *)
Definition is_digit (c : ascii) : bool := in_range 48 57 c.

(** [str.isspace]. *)
Definition isspace (c : ascii) : bool :=
  in_range 9 13 c || in_range 28 32 c
  || (code c =? 133)%N || (code c =? 160)%N.

(** [\w] of [re] on [str] patterns: alphanumerics and the underscore. *)
Definition is_word (c : ascii) : bool :=
  in_range 48 57 c || in_range 65 90 c || (code c =? 95)%N
  || in_range 97 122 c
  || (code c =? 170)%N || in_range 178 179 c || (code c =? 181)%N
  || in_range 185 186 c || in_range 188 190 c
  || in_range 192 214 c || in_range 216 246 c || in_range 248 255 c.

(** [str.lower] on one code point. *)
Definition lower_char (c : ascii) : ascii :=
  if in_range 65 90 c || in_range 192 214 c || in_range 216 222 c
  then ascii_of_N (code c + 32)
  else c.

Definition lower (s : list ascii) : list ascii := map lower_char s.

Fixpoint lstrip (s : list ascii) : list ascii :=
  match s with
  | c :: s' => if isspace c then lstrip s' else s
  | [] => []
  end.

Definition rstrip (s : list ascii) : list ascii := rev (lstrip (rev s)).

(** [str.strip()] with no argument. *)
Definition strip (s : list ascii) : list ascii := rstrip (lstrip s).

(** [s.startswith(k)]. *)
Fixpoint startswith (k s : list ascii) : bool :=
  match k, s with
  | [], _ => true
  | a :: k', b :: s' => Ascii.eqb a b && startswith k' s'
  | _ :: _, [] => false
  end.

(** [k in s] for two strings. *)
Fixpoint contains (k s : list ascii) : bool :=
  startswith k s ||
  match s with
  | [] => false
  | _ :: s' => contains k s'
  end.

(** [s.replace(old, new)] for a non-empty [old]: occurrences are replaced
    from the left and do not overlap; [skip] counts the characters of the
    occurrence being replaced that are still to be passed over. *)
Fixpoint replace_from (old new s : list ascii) (skip : nat) : list ascii :=
  match s with
  | [] => []
  | c :: s' =>
      match skip with
      | S n => replace_from old new s' n
      | O =>
          if startswith old s
          then new ++ replace_from old new s' (length old - 1)
          else c :: replace_from old new s' 0
      end
  end.

Definition replace (old new s : list ascii) : list ascii :=
  replace_from old new s 0.

(** Case-insensitive comparison against a lower-case ASCII word. *)
Definition eq_nocase (s word : list ascii) : bool :=
  bool_decide (lower s = word).

Definition nl : string := String (ascii_of_N 10) EmptyString.

End Text.

(** ** The fragment of [re] used by the module

    A backtracking matcher in continuation-passing style, with the greedy
    quantifiers of [re]: one more iteration of the body is tried before the
    rest of the pattern. *)

Module Re.
Import Text.

Inductive regex : Type :=
| Lit (c : ascii)                       (* a literal character *)
| Class (p : ascii -> bool)             (* [\d], a bracket class *)
| Cat (r1 r2 : regex)                   (* concatenation *)
| Rep (lo hi : nat) (r : regex)         (* greedy r{lo,hi}; r? is r{0,1} *)
| Star (r : regex)                      (* greedy r* *)
| Grp (r : regex)                       (* capturing group 1 *)
| Bol                                   (* ^ *)
| Eol                                   (* $ without MULTILINE *)
| Wordb.                                (* \b *)

Definition Opt (r : regex) : regex := Rep 0 1 r.

(** A position in the subject: the text already passed (most recent
    character first), the text ahead, and the text of group 1. *)
Record mstate : Type := MState {
  seen : list ascii;
  rest : list ascii;
  group1 : option (list ascii)
}.

Definition kont : Type := mstate -> option mstate.

Definition eat (p : ascii -> bool) (k : kont) (st : mstate) : option mstate :=
  match rest st with
  | c :: rest' =>
      if p c then k (MState (c :: seen st) rest' (group1 st)) else None
  | [] => None
  end.

Fixpoint rep_exact (step : kont -> kont) (n : nat) (k : kont) : kont :=
  match n with
  | O => k
  | S n' => step (rep_exact step n' k)
  end.

Fixpoint rep_upto (step : kont -> kont) (n : nat) (k : kont)
    (st : mstate) : option mstate :=
  match n with
  | O => k st
  | S n' =>
      match step (rep_upto step n' k) st with
      | Some r => Some r
      | None => k st
      end
  end.

Definition word_at (l : list ascii) : bool :=
  match l with
  | c :: _ => is_word c
  | [] => false
  end.

Definition newline : ascii := ascii_of_N 10.

Definition at_eol (l : list ascii) : bool :=
  match l with
  | [] => true
  | [c] => Ascii.eqb c newline
  | _ => false
  end.

Definition close_group (st0 st1 : mstate) : mstate :=
  MState (seen st1) (rest st1)
         (Some (rev (firstn (length (seen st1) - length (seen st0)) (seen st1)))).

Fixpoint run (r : regex) (k : kont) (st : mstate) : option mstate :=
  match r with
  | Lit c => eat (Ascii.eqb c) k st
  | Class p => eat p k st
  | Cat r1 r2 => run r1 (run r2 k) st
  | Rep lo hi r' => rep_exact (run r') lo (rep_upto (run r') (hi - lo) k) st
  | Star r' => rep_upto (run r') (length (rest st)) k st
  | Grp r' => run r' (fun st1 => k (close_group st st1)) st
  | Bol => match seen st with [] => k st | _ :: _ => None end
  | Eol => if at_eol (rest st) then k st else None
  | Wordb => if xorb (word_at (seen st)) (word_at (rest st)) then k st else None
  end.

Fixpoint has_group (r : regex) : bool :=
  match r with
  | Grp _ => true
  | Cat r1 r2 => has_group r1 || has_group r2
  | Rep _ _ r' | Star r' => has_group r'
  | _ => false
  end.

(** A match object: the matched text and group 1. *)
Record hit : Type := Hit { whole : list ascii; grp : option (list ascii) }.

(** One attempt at the current position. *)
Definition match_at (r : regex) (sn rs : list ascii) : option hit :=
  match run r Some (MState sn rs None) with
  | Some st =>
      Some (Hit (rev (firstn (length (seen st) - length sn) (seen st)))
                (group1 st))
  | None => None
  end.

(** [re.match(r, s)], as the truth value the module takes of it. *)
Definition re_match (r : regex) (s : list ascii) : bool :=
  match match_at r [] s with Some _ => true | None => false end.

Inductive piece : Type :=
| Gap (c : ascii)       (* a character outside every match *)
| Found (h : hit).      (* a match *)

(** The left-to-right scan shared by [re.findall] and [re.sub]: matches
    do not overlap; [skip] counts the characters of the last match still
    to be passed over. *)
Fixpoint scan (r : regex) (sn rs : list ascii) (skip : nat) : list piece :=
  match skip with
  | S n =>
      match rs with
      | [] => []
      | c :: rs' => scan r (c :: sn) rs' n
      end
  | O =>
      match match_at r sn rs with
      | Some h =>
          Found h ::
          match rs with
          | [] => []
          | c :: rs' =>
              match length (whole h) with
              | O => Gap c :: scan r (c :: sn) rs' 0
              | S n => scan r (c :: sn) rs' n
              end
          end
      | None =>
          match rs with
          | [] => []
          | c :: rs' => Gap c :: scan r (c :: sn) rs' 0
          end
      end
  end.

(** What [re.findall] reports for one match: group 1 when the pattern has
    a group (the empty string when the group took no part), otherwise the
    whole match. *)
Definition report (r : regex) (h : hit) : list ascii :=
  if has_group r then default [] (grp h) else whole h.

Fixpoint hits (r : regex) (ps : list piece) : list (list ascii) :=
  match ps with
  | [] => []
  | Gap _ :: ps' => hits r ps'
  | Found h :: ps' => report r h :: hits r ps'
  end.

Definition findall (r : regex) (s : list ascii) : list (list ascii) :=
  hits r (scan r [] s 0).

Fixpoint rebuild (repl : list ascii) (ps : list piece) : list ascii :=
  match ps with
  | [] => []
  | Gap c :: ps' => c :: rebuild repl ps'
  | Found _ :: ps' => repl ++ rebuild repl ps'
  end.

(** [re.sub(r, repl, s)] for a replacement without back-references. *)
Definition sub (r : regex) (repl s : list ascii) : list ascii :=
  rebuild repl (scan r [] s 0).

End Re.

Import Text Re.

(** ** Python values, exceptions and floats *)

(** The classes of [Exception] the module names or can meet; every value
    of [exn] is an instance of [Exception], the class the orchestrator's
    handler catches. *)
Inductive exn_class : Type :=
| ValueError
| AttributeError
| TypeError
| KeyError
| IndexError
| OtherException (name : string).

Record exn : Type := Exn { exn_cls : exn_class; exn_msg : string }.

(** The result of a call: a value, or a raised exception. *)
Inductive outcome (A : Type) : Type :=
| Return (a : A)
| Raise (e : exn).
Arguments Return {A} a.
Arguments Raise {A} e.

#[global] Instance outcome_ret : MRet outcome := @Return.

#[global] Instance outcome_bind : MBind outcome :=
  fun A B (f : A -> outcome B) (x : outcome A) =>
    match x with
    | Return a => f a
    | Raise e => Raise e
    end.

(** [try: body except (c1, c2, ...): fallback]. *)
Definition try_except {A : Type} (body : outcome A)
    (caught : exn_class -> bool) (fallback : A) : outcome A :=
  match body with
  | Return a => Return a
  | Raise e => if caught (exn_cls e) then Return fallback else Raise e
  end.

(** Binary64 floats, as [spec_float] with 53 bits of precision. *)
Module Float64.

Definition float : Type := spec_float.
Definition prec : Z := 53.
Definition emax : Z := 1024.

Definition zero : float := S754_zero false.

(** [x > 0] for a float [x]. *)
Definition gt_zero (x : float) : bool := SFltb zero x.

Definition digit_value (c : ascii) : N := (code c - 48)%N.

Definition digits_value (ds : list ascii) : N :=
  fold_left (fun acc c => (acc * 10 + digit_value c)%N) ds 0%N.

(** The float nearest to [m * 10^e] (ties to even). *)
Definition of_decimal (neg : bool) (m : N) (e : Z) : float :=
  match m with
  | N0 => S754_zero neg
  | Npos p =>
      match e with
      | Zneg k =>
          SFdiv prec emax (S754_finite neg p 0)
                (S754_finite false (10 ^ k)%positive 0)
      | _ =>
          let z := (Z.pos p * 10 ^ e)%Z in
          binary_normalize prec emax (if neg then (- z)%Z else z) 0 neg
      end
  end.

(** Whitespace that [float()] strips around its argument. *)
Definition float_space (c : ascii) : bool :=
  in_range 9 13 c || (code c =? 32)%N || (code c =? 133)%N || (code c =? 160)%N.

Fixpoint lskip (s : list ascii) : list ascii :=
  match s with
  | c :: s' => if float_space c then lskip s' else s
  | [] => []
  end.

Definition trim (s : list ascii) : list ascii := rev (lskip (rev (lskip s))).

(** Underscores are allowed between two digits only; [prev] is the
    character before [s]. *)
Fixpoint drop_underscores (prev : option ascii) (s : list ascii)
    : option (list ascii) :=
  let prev_digit := match prev with Some p => is_digit p | None => false end in
  let prev_under :=
    match prev with Some p => Ascii.eqb p "_" | None => false end in
  match s with
  | [] => if prev_under then None else Some []
  | c :: s' =>
      if Ascii.eqb c "_"
      then if prev_digit then drop_underscores (Some c) s' else None
      else if prev_under && negb (is_digit c) then None
      else option_map (cons c) (drop_underscores (Some c) s')
  end.

Definition split_sign (s : list ascii) : bool * list ascii :=
  match s with
  | c :: s' =>
      if Ascii.eqb c "-" then (true, s')
      else if Ascii.eqb c "+" then (false, s')
      else (false, s)
  | [] => (false, [])
  end.

Fixpoint span_digits (s : list ascii) : list ascii * list ascii :=
  match s with
  | c :: s' =>
      if is_digit c
      then let '(ds, r) := span_digits s' in (c :: ds, r)
      else ([], s)
  | [] => ([], [])
  end.

(** The exponent part, which must run to the end of the text. *)
Definition parse_exponent (s : list ascii) : option Z :=
  match s with
  | [] => Some 0%Z
  | c :: s' =>
      if Ascii.eqb c "e" || Ascii.eqb c "E"
      then
        let '(neg, s'') := split_sign s' in
        match span_digits s'' with
        | ((_ :: _) as ds, []) =>
            let v := Z.of_N (digits_value ds) in
            Some (if neg then (- v)%Z else v)
        | _ => None
        end
      else None
  end.

Definition parse_number (neg : bool) (body : list ascii) : option float :=
  let '(ip, r1) := span_digits body in
  let '(fp, r2) :=
    match r1 with
    | c :: t => if Ascii.eqb c "." then span_digits t else ([], r1)
    | [] => ([], r1)
    end in
  match ip ++ fp with
  | [] => None
  | ds =>
      match parse_exponent r2 with
      | Some e =>
          Some (of_decimal neg (digits_value ds) (e - Z.of_nat (length fp)))
      | None => None
      end
  end.

(** The text-to-float conversion behind [float(s)]. *)
Definition float_of_string (s : list ascii) : option float :=
  match drop_underscores None (trim s) with
  | None => None
  | Some t =>
      let '(neg, body) := split_sign t in
      if eq_nocase body (chars "inf") || eq_nocase body (chars "infinity")
      then Some (S754_infinity neg)
      else if eq_nocase body (chars "nan") then Some S754_nan
      else parse_number neg body
  end.

(** The float of an integer literal, for stating results. *)
Definition of_Z (z : Z) : float := binary_normalize prec emax z 0 false.

End Float64.

Abbreviation float := Float64.float.

Inductive pyobj : Type :=
| PyStr (s : string)
| PyNone
| PyBool (b : bool)
| PyInt (z : Z)
| PyFloat (f : float).

(** [isinstance(x, str)]. *)
Definition is_str (x : pyobj) : bool :=
  match x with PyStr _ => true | _ => false end.

(** [float(s)] for a string [s]. *)
Definition py_float (s : string) : outcome float :=
  match Float64.float_of_string (chars s) with
  | Some f => Return f
  | None => Raise (Exn ValueError "could not convert string to float")
  end.

(** [x.replace(old, new)]: only [str] among the modelled values has the
    attribute. *)
Definition py_replace (x : pyobj) (old new : string) : outcome string :=
  match x with
  | PyStr s => Return (str (replace (chars old) (chars new) (chars s)))
  | _ => Raise (Exn AttributeError "object has no attribute 'replace'")
  end.

(** ** [SecurityValidator] *)

Module SecurityValidator.

(** The bracket class of the sanitizer's pattern: less-than,
    greater-than, the double quote (code 34), the single quote (escaped
    in the raw pattern) and the semicolon. *)
Definition harmful (c : ascii) : bool :=
  Ascii.eqb c "<" || Ascii.eqb c ">" || (code c =? 34)%N
  || Ascii.eqb c "'" || Ascii.eqb c ";".

Definition harmful_pattern : regex := Class harmful.

Definition sanitize_input (user_input : pyobj) : string :=
  match user_input with
  | PyStr s =>
      let sanitized := sub harmful_pattern [] (chars s) in
      str (strip sanitized)
  | _ => ""
  end.

(** [^\d{10,12}$] *)
Definition account_format : regex :=
  Cat Bol (Cat (Rep 10 12 (Class is_digit)) Eol).

Definition validate_account_number (account_number : string) : bool :=
  re_match account_format (chars account_number).

Definition value_or_attribute_error (c : exn_class) : bool :=
  match c with
  | ValueError | AttributeError => true
  | _ => false
  end.

Definition validate_amount (amount : pyobj) : outcome (bool * float) :=
  try_except
    (no_dollar ← py_replace amount "$" "";
     no_comma ← py_replace (PyStr no_dollar) "," "";
     parsed_amount ← py_float no_comma;
     mret (Float64.gt_zero parsed_amount, parsed_amount))
    value_or_attribute_error
    (false, Float64.zero).

End SecurityValidator.

(** ** Intents and sessions *)

Inductive IntentType : Type :=
| GREETING
| ACCOUNT_BALANCE
| TRANSACTION_HISTORY
| TRANSFER_MONEY
| LOAN_INFO
| INVESTMENT_ADVICE
| SUPPORT
| GOODBYE
| UNKNOWN.

#[global] Instance IntentType_eq_dec : EqDecision IntentType.
Proof. solve_decision. Defined.

Definition value (i : IntentType) : string :=
  match i with
  | GREETING => "greeting"
  | ACCOUNT_BALANCE => "account_balance"
  | TRANSACTION_HISTORY => "transaction_history"
  | TRANSFER_MONEY => "transfer_money"
  | LOAN_INFO => "loan_info"
  | INVESTMENT_ADVICE => "investment_advice"
  | SUPPORT => "support"
  | GOODBYE => "goodbye"
  | UNKNOWN => "unknown"
  end.

Record UserSession : Type := {
  user_id : string;
  authenticated : bool;
  context : gmap string pyobj;
  last_intent : option IntentType
}.

(** [UserSession(user_id=uid)] with the dataclass defaults. *)
Definition new_session (uid : string) : UserSession :=
  {| user_id := uid; authenticated := false; context := ∅; last_intent := None |}.

(** [session.last_intent = intent]. *)
Definition set_last_intent (session : UserSession) (intent : IntentType)
    : UserSession :=
  {| user_id := user_id session;
     authenticated := authenticated session;
     context := context session;
     last_intent := Some intent |}.

(** ** Logging *)

Inductive log_level : Type := INFO | ERROR.

Record log_record : Type := { level : log_level; message : string }.

Definition info (msg : string) : log_record := {| level := INFO; message := msg |}.
Definition error (msg : string) : log_record := {| level := ERROR; message := msg |}.

(** A component call: the records it logs, then its result. *)
Definition logged (A : Type) : Type := (list log_record * outcome A)%type.

Definition quiet {A : Type} (x : outcome A) : logged A := ([], x).

(** ** [IntentClassifier] *)

Module IntentClassifier.

(** The keyword table, in the order the dictionary literal declares it
    (which is the order [items()] yields). *)
Definition intent_keywords : list (IntentType * list string) :=
  [ (GREETING, ["hello"; "hi"; "hey"; "good morning"; "good afternoon"]);
    (ACCOUNT_BALANCE, ["balance"; "account balance"; "how much"; "funds"]);
    (TRANSACTION_HISTORY, ["transactions"; "history"; "statement"; "activity"]);
    (TRANSFER_MONEY, ["transfer"; "send money"; "pay"; "wire"]);
    (LOAN_INFO, ["loan"; "mortgage"; "credit"; "borrow"]);
    (INVESTMENT_ADVICE, ["invest"; "portfolio"; "stocks"; "bonds"; "mutual funds"]);
    (SUPPORT, ["help"; "support"; "customer service"; "problem"]);
    (GOODBYE, ["bye"; "goodbye"; "exit"; "quit"; "thank you"]) ].

(** [any(keyword in text for keyword in keywords)]. *)
Definition any_keyword (text : list ascii) (keywords : list string) : bool :=
  existsb (fun keyword => contains (chars keyword) text) keywords.

Fixpoint first_match (text : list ascii)
    (items : list (IntentType * list string)) : option IntentType :=
  match items with
  | [] => None
  | (intent, keywords) :: items' =>
      if any_keyword text keywords then Some intent
      else first_match text items'
  end.

(** The intent returned, without the log record. *)
Definition classify (user_input : string) : IntentType :=
  let user_input_lower := lower (chars user_input) in
  default UNKNOWN (first_match user_input_lower intent_keywords).

Definition classify_intent (user_input : string) : logged IntentType :=
  let intent := classify user_input in
  ([info ("Intent classified: " +:+ value intent)], Return intent).

End IntentClassifier.

(** ** [ResponseGenerator]

    The bullet of the Python literals lies outside the Latin-1 block and
    stands in the texts below by its UTF-8 bytes; the texts are fixed
    replies and are never inspected. *)

Abbreviation entities := (gmap string pyobj).

Module ResponseGenerator.

(** [self.responses], the canned replies; other intents have no entry. *)
Definition responses (intent : IntentType) : option (list string) :=
  match intent with
  | GREETING =>
      Some [ "Hello! Welcome to SecureBank. How can I assist you today?";
             "Hi there! I'm here to help with your banking needs. What can I do for you?";
             "Good day! How may I help you with your financial services today?" ]
  | GOODBYE =>
      Some [ "Thank you for using SecureBank! Have a great day!";
             "Goodbye! Feel free to reach out anytime you need assistance.";
             "Take care! Remember, I'm here 24/7 for your banking needs." ]
  | _ => None
  end.

(** [random.choice(seq)]; [draw] is what the generator draws. *)
Definition choice (draw : nat) (seq : list string) : outcome string :=
  match seq with
  | [] => Raise (Exn IndexError "Cannot choose from an empty sequence")
  | _ :: _ => Return (nth (draw mod length seq) seq "")
  end.

Definition _request_authentication : string :=
  "For security purposes, I'll need to verify your identity first. "
  +:+ "Please provide your account number or contact customer service at 1-800-SECURE.".

(** The intent-specific handlers, the methods [generate_response]
    dispatches to. *)
Class Handlers : Type := {
  _get_random_response : IntentType -> outcome string;
  _handle_balance_inquiry : UserSession -> outcome string;
  _handle_transaction_history : UserSession -> outcome string;
  _handle_transfer_request : entities -> outcome string;
  _handle_loan_inquiry : unit -> outcome string;
  _handle_investment_inquiry : unit -> outcome string;
  _handle_support_request : unit -> outcome string;
  _handle_unknown_intent : unit -> outcome string
}.

Definition auth_required : list IntentType :=
  [ACCOUNT_BALANCE; TRANSACTION_HISTORY; TRANSFER_MONEY].

Section Generate.
Context {H : Handlers}.

Definition response_map (session : UserSession) (extracted_data : entities)
    : list (IntentType * (unit -> outcome string)) :=
  [ (GREETING, fun _ => _get_random_response GREETING);
    (ACCOUNT_BALANCE, fun _ => _handle_balance_inquiry session);
    (TRANSACTION_HISTORY, fun _ => _handle_transaction_history session);
    (TRANSFER_MONEY, fun _ => _handle_transfer_request extracted_data);
    (LOAN_INFO, fun _ => _handle_loan_inquiry tt);
    (INVESTMENT_ADVICE, fun _ => _handle_investment_inquiry tt);
    (SUPPORT, fun _ => _handle_support_request tt);
    (GOODBYE, fun _ => _get_random_response GOODBYE);
    (UNKNOWN, fun _ => _handle_unknown_intent tt) ].

(** [d.get(key, fallback)] on the dispatch table. *)
Definition get {A : Type} (d : list (IntentType * A)) (key : IntentType)
    (fallback : A) : A :=
  match List.find (fun item => bool_decide (fst item = key)) d with
  | Some item => snd item
  | None => fallback
  end.

Definition generate_response (intent : IntentType) (session : UserSession)
    (extracted_data : option entities) : outcome string :=
  let extracted_data := default ∅ extracted_data in
  if bool_decide (intent ∈ auth_required) && negb (authenticated session)
  then Return _request_authentication
  else
    let handler :=
      get (response_map session extracted_data) intent
          (fun _ => _handle_unknown_intent tt) in
    handler tt.

End Generate.

(** The handlers of the class itself. *)
Definition get_random_response (draw : nat) (intent : IntentType)
    : outcome string :=
  match responses intent with
  | Some seq => choice draw seq
  | None => Raise (Exn KeyError (value intent))
  end.

Definition handle_balance_inquiry (session : UserSession) : string :=
  let mock_balance := "$2,547.83" in
  "Your current account balance is " +:+ mock_balance
  +:+ ". Is there anything else I can help you with?".

Definition handle_transaction_history (session : UserSession) : string :=
  "Here are your recent transactions:" +:+ nl
  +:+ "• Dec 15: Grocery Store - $85.42" +:+ nl
  +:+ "• Dec 14: Online Transfer - $200.00" +:+ nl
  +:+ "• Dec 13: ATM Withdrawal - $60.00" +:+ nl
  +:+ "Would you like more details about any specific transaction?".

Definition handle_transfer_request (extracted_data : entities) : string :=
  "I can help you with transfers. For security, please visit our secure "
  +:+ "online portal or mobile app to complete transfers. You can also call "
  +:+ "our customer service at 1-800-SECURE.".

Definition handle_loan_inquiry : string :=
  "We offer various loan products including:" +:+ nl
  +:+ "• Personal loans (5.99% - 15.99% APR)" +:+ nl
  +:+ "• Auto loans (3.49% - 7.99% APR)" +:+ nl
  +:+ "• Home mortgages (competitive rates)" +:+ nl
  +:+ "Would you like to speak with a loan specialist?".

Definition handle_investment_inquiry : string :=
  "Investment advice should be personalized to your financial situation. "
  +:+ "I recommend speaking with one of our certified financial advisors. "
  +:+ "Would you like me to schedule a consultation for you?".

Definition handle_support_request : string :=
  "I'm here to help! For complex issues, you can:" +:+ nl
  +:+ "• Call customer service: 1-800-SECURE" +:+ nl
  +:+ "• Visit our website: www.securebank.com/support" +:+ nl
  +:+ "• Chat with a specialist (Mon-Fri 8AM-8PM)" +:+ nl
  +:+ "What specific issue can I help you with?".

Definition handle_unknown_intent : string :=
  "I'm not sure I understand. I can help you with:" +:+ nl
  +:+ "• Account balances and transactions" +:+ nl
  +:+ "• Loan information" +:+ nl
  +:+ "• General banking questions" +:+ nl
  +:+ "• Connecting you with customer support" +:+ nl
  +:+ "How can I assist you today?".

Definition own_handlers (draw : nat) : Handlers :=
  {| _get_random_response := get_random_response draw;
     _handle_balance_inquiry := fun session => Return (handle_balance_inquiry session);
     _handle_transaction_history :=
       fun session => Return (handle_transaction_history session);
     _handle_transfer_request :=
       fun extracted_data => Return (handle_transfer_request extracted_data);
     _handle_loan_inquiry := fun _ => Return handle_loan_inquiry;
     _handle_investment_inquiry := fun _ => Return handle_investment_inquiry;
     _handle_support_request := fun _ => Return handle_support_request;
     _handle_unknown_intent := fun _ => Return handle_unknown_intent |}.

End ResponseGenerator.

(** ** [FintechChatbot] *)

Module FintechChatbot.
Import SecurityValidator.

(** The mutable state a call can touch: the session registry of the
    chatbot and the records sent to the logger. *)
Record world : Type := World {
  active_sessions : gmap string UserSession;
  log : list log_record
}.

(** A method body: it may change the state and may raise; the state
    changes made before a raise stay. *)
Definition M (A : Type) : Type := world -> outcome A * world.

#[global] Instance M_ret : MRet M := fun A (a : A) w => (Return a, w).

#[global] Instance M_bind : MBind M :=
  fun A B (f : A -> M B) (m : M A) w =>
    match m w with
    | (Return a, w') => f a w'
    | (Raise e, w') => (Raise e, w')
    end.

(** [try: body except Exception as e: handler(e)]. *)
Definition try_catch {A : Type} (body : M A) (handler : exn -> M A) : M A :=
  fun w =>
    match body w with
    | (Return a, w') => (Return a, w')
    | (Raise e, w') => handler e w'
    end.

Definition emit (r : log_record) : M unit :=
  fun w => (Return tt, World (active_sessions w) (log w ++ [r])).

(** Running a component: its records reach the logger, its result or
    exception is passed on. *)
Definition call {A : Type} (c : logged A) : M A :=
  fun w => (snd c, World (active_sessions w) (log w ++ fst c)).

Definition create_session (uid : string) : M UserSession :=
  fun w =>
    let session := new_session uid in
    (Return session,
     World (<[uid := session]> (active_sessions w))
           (log w ++ [info ("New session created for user: " +:+ uid)])).

(** [self.active_sessions.get(user_id) or self.create_session(user_id)];
    a session object is always true. *)
Definition get_session (uid : string) : M UserSession :=
  fun w =>
    match active_sessions w !! uid with
    | Some session => (Return session, w)
    | None => create_session uid w
    end.

(** The session a call works on: the registered one, or a fresh one. *)
Definition current_session (uid : string) (w : world) : UserSession :=
  default (new_session uid) (active_sessions w !! uid).

(** The state once the session has been fetched or created. *)
Definition entered (uid : string) (w : world) : world :=
  snd (get_session uid w).

(** The assignment [session.last_intent = intent] on the object held in
    the registry under [uid]: the registry sees the change. *)
Definition assign_last_intent (uid : string) (session : UserSession)
    (intent : IntentType) : M UserSession :=
  fun w =>
    let session' := set_last_intent session intent in
    (Return session',
     World (<[uid := session']> (active_sessions w)) (log w)).

Definition end_session (uid : string) : M unit :=
  fun w =>
    match active_sessions w !! uid with
    | Some _ =>
        (Return tt,
         World (delete uid (active_sessions w))
               (log w ++ [info ("Session ended for user: " +:+ uid)]))
    | None => (Return tt, w)
    end.

Definition invalid_message : string :=
  "I didn't receive a valid message. Please try again.".

Definition apology : string :=
  "I apologize, but I encountered an error. Please try again or "
  +:+ "contact customer support at 1-800-SECURE if the issue persists.".

(** [\$?(\d{1,3}(?:,\d{3})*(?:\.\d{2})?)] *)
Definition amount_pattern : regex :=
  Cat (Opt (Lit "$"))
      (Grp (Cat (Rep 1 3 (Class is_digit))
                (Cat (Star (Cat (Lit ",") (Rep 3 3 (Class is_digit))))
                     (Opt (Cat (Lit ".") (Rep 2 2 (Class is_digit))))))).

(** [\b\d{10,12}\b] *)
Definition account_pattern : regex :=
  Cat Wordb (Cat (Rep 10 12 (Class is_digit)) Wordb).

Definition _extract_entities (message : string) : entities :=
  let entities0 : entities := ∅ in
  let amounts := findall amount_pattern (chars message) in
  let entities1 :=
    match amounts with
    | first :: _ => <["amount" := PyStr (str first)]> entities0
    | [] => entities0
    end in
  let accounts := findall account_pattern (chars message) in
  match accounts with
  | first :: _ => <["account_number" := PyStr (str first)]> entities1
  | [] => entities1
  end.

(** The orchestrator over its three collaborators: the classifier and
    the generator are attributes of the chatbot, the extractor is a
    method; each may log and may raise. *)
Section Orchestrator.
Variable classify_intent : string -> logged IntentType.
Variable extract_entities : string -> logged entities.
Variable generate_response :
  IntentType -> UserSession -> option entities -> logged string.

Definition pipeline (uid : string) (message : pyobj) : M string :=
  session ← get_session uid;
  let sanitized_message := sanitize_input message in
  if bool_decide (sanitized_message = "")
  then mret invalid_message
  else
    intent ← call (classify_intent sanitized_message);
    session ← assign_last_intent uid session intent;
    extracted_data ← call (extract_entities sanitized_message);
    response ← call (generate_response intent session (Some extracted_data));
    _ ← emit (info ("Processed message for user " +:+ uid +:+ ": "
                     +:+ value intent));
    mret response.

Definition on_error (e : exn) : M string :=
  _ ← emit (error ("Error processing message: " +:+ exn_msg e));
  mret apology.

Definition process_message_with (uid : string) (message : pyobj) : M string :=
  try_catch (pipeline uid message) on_error.

(** An exception is raised inside classification, extraction or
    generation, on the sanitized text [s] and the session [session]. *)
Definition raised_inside (s : string) (session : UserSession) : Prop :=
  (exists e, snd (classify_intent s) = Raise e)
  \/ exists intent,
      snd (classify_intent s) = Return intent
      /\ ((exists e, snd (extract_entities s) = Raise e)
          \/ exists d e,
              snd (extract_entities s) = Return d
              /\ snd (generate_response intent
                        (set_last_intent session intent) (Some d))
                 = Raise e).

(** The reply on a non-empty sanitized text [s]: what the generator
    returns, or the apology as soon as a collaborator raises. *)
Definition reply_on (s : string) (session : UserSession) : string :=
  match snd (classify_intent s) with
  | Raise _ => apology
  | Return intent =>
      match snd (extract_entities s) with
      | Raise _ => apology
      | Return d =>
          match snd (generate_response intent
                       (set_last_intent session intent) (Some d)) with
          | Raise _ => apology
          | Return response => response
          end
      end
  end.

End Orchestrator.

(** The chatbot as [__init__] builds it; [draw] is the draw of the random
    generator for this call. *)
Definition process_message (draw : nat) (uid : string) (message : pyobj)
    : M string :=
  process_message_with
    IntentClassifier.classify_intent
    (fun message => quiet (Return (_extract_entities message)))
    (fun intent session extracted_data =>
       quiet (@ResponseGenerator.generate_response
                (ResponseGenerator.own_handlers draw)
                intent session extracted_data))
    uid message.

Definition init : world :=
  World ∅ [info "Fintech Chatbot initialized successfully"].

End FintechChatbot.

(** ** The interactive loop, [main]

    The terminal is a list of events, one per [input()] call: a line
    typed by the user, or an interrupt (the [KeyboardInterrupt] of
    Ctrl-C while the loop waits); when the list is over, [input()] meets
    the end of the input and raises [EOFError].  What the program writes
    is a list of prompts and [print] calls (each [print] ends its text
    with a line break, which is left out). *)

Module Main.
Import FintechChatbot.

Inductive event : Type :=
| Line (text : string)
| Interrupt.

Inductive output : Type :=
| Prompt (text : string)
| Print (text : string).

(** How [main] ends: by the [break] after a quit word, by the handler of
    [KeyboardInterrupt], or by an exception that leaves [main]
    ([EOFError] from [input()], or one raised by [process_message]). *)
Inductive ending : Type :=
| Quit
| Interrupted
| EndOfInput
| Failed (e : exn).

Definition main_user_id : string := "test_user_001".

Definition quit_words : list string := ["quit"; "exit"; "q"].

(** The [while True] loop; [draws n] is the draw of the random generator
    for the call of [process_message] number [n]. *)
Fixpoint loop (draws : nat -> nat) (calls : nat) (events : list event)
    (bot : world) : ending * list output * world :=
  match events with
  | [] => (EndOfInput, [Prompt "You: "], bot)
  | Interrupt :: _ => (Interrupted, [Prompt "You: "], bot)
  | Line raw :: events' =>
      let user_input := str (strip (chars raw)) in
      if bool_decide (str (lower (chars user_input)) ∈ quit_words)
      then
        match process_message (draws calls) main_user_id (PyStr "goodbye") bot with
        | (Return response, bot') =>
            (Quit, [Prompt "You: "; Print ("Bot: " +:+ response)], bot')
        | (Raise e, bot') => (Failed e, [Prompt "You: "], bot')
        end
      else if bool_decide (user_input = "")
      then
        let '(e, outs, bot') := loop draws calls events' bot in
        (e, Prompt "You: " :: outs, bot')
      else
        match process_message (draws calls) main_user_id (PyStr user_input) bot with
        | (Return response, bot') =>
            let '(e, outs, bot'') := loop draws (S calls) events' bot' in
            (e, Prompt "You: " :: Print ("Bot: " +:+ response +:+ nl) :: outs,
             bot'')
        | (Raise e, bot') => (Failed e, [Prompt "You: "], bot')
        end
  end.

Definition banner : list output :=
  [Print "=== SecureBank Fintech Chatbot ===";
   Print ("Type 'quit' to exit" +:+ nl)].

Definition farewell : output :=
  Print (nl +:+ nl +:+ "Goodbye! Thanks for testing the SecureBank Chatbot.").

(** [main()]: the banner, the loop on a new chatbot, the farewell after an
    interrupt, and in every case the [finally] clause ending the session. *)
Definition main (draws : nat -> nat) (events : list event)
    : ending * list output * world :=
  let '(e, outs, bot) := loop draws 0 events init in
  let said :=
    match e with
    | Interrupted => [farewell]
    | _ => []
    end in
  let '(_, bot') := end_session main_user_id bot in
  (e, banner ++ outs ++ said, bot').

End Main.

(** ** Vocabulary of the properties *)

Section Vocabulary.
Import SecurityValidator IntentClassifier ResponseGenerator FintechChatbot.

(** The order in which the intents are scanned. *)
Definition declared_order : list IntentType :=
  [GREETING; ACCOUNT_BALANCE; TRANSACTION_HISTORY; TRANSFER_MONEY;
   LOAN_INFO; INVESTMENT_ADVICE; SUPPORT; GOODBYE].

(** Some keyword of [intent] occurs as a substring of [text]. *)
Definition keyword_occurs (intent : IntentType) (text : list ascii) : Prop :=
  exists keywords keyword a b,
    In (intent, keywords) intent_keywords
    /\ In keyword keywords
    /\ text = a ++ chars keyword ++ b.

(** The text handed to [float]: the argument without its dollar signs
    and commas. *)
Definition cleaned (s : string) : list ascii :=
  List.filter (fun c => negb (Ascii.eqb "," c))
              (List.filter (fun c => negb (Ascii.eqb "$" c)) (chars s)).

(** Handlers that raise whenever they run. *)
Definition failing_handlers : Handlers :=
  let boom := Raise (Exn (OtherException "RuntimeError") "handler ran") in
  {| _get_random_response := fun _ => boom;
     _handle_balance_inquiry := fun _ => boom;
     _handle_transaction_history := fun _ => boom;
     _handle_transfer_request := fun _ => boom;
     _handle_loan_inquiry := fun _ => boom;
     _handle_investment_inquiry := fun _ => boom;
     _handle_support_request := fun _ => boom;
     _handle_unknown_intent := fun _ => boom |}.

(** An extracted text as the value stored in the entities. *)
Definition as_entity (m : list ascii) : pyobj := PyStr (str m).

(** Collaborators for exercising the orchestrator: a classifier that
    raises, and a generator that raises. *)
Definition broken_classifier (s : string) : logged IntentType :=
  quiet (Raise (Exn (OtherException "RuntimeError") "classifier down")).

Definition broken_generator (intent : IntentType) (session : UserSession)
    (extracted_data : option entities) : logged string :=
  quiet (Raise (Exn (OtherException "RuntimeError") "generator down")).

Definition own_extractor (message : string) : logged entities :=
  quiet (Return (_extract_entities message)).

Definition returning : world :=
  World (<["u1" := set_last_intent (new_session "u1") GREETING]> ∅) [].

End Vocabulary.

Section FurtherVocabulary.
Import SecurityValidator IntentClassifier ResponseGenerator FintechChatbot.

(** The place of an intent in the scan: its index in the declared order,
    and 8 for [UNKNOWN]. *)
Fixpoint index_of (intent : IntentType) (order : list IntentType) : nat :=
  match order with
  | [] => 0
  | first :: order' =>
      if bool_decide (first = intent) then 0 else S (index_of intent order')
  end.

Definition rank (intent : IntentType) : nat := index_of intent declared_order.

(** A character that sanitizing removes wherever it stands at an end of
    the text: blacklisted, or whitespace. *)
Definition droppable (c : ascii) : bool := harmful c || isspace c.

(** No session of the registry is authenticated. *)
Definition all_unauthenticated (w : world) : Prop :=
  forall uid session,
    active_sessions w !! uid = Some session -> authenticated session = false.

(** Every session is registered under its own [user_id]. *)
Definition keyed (w : world) : Prop :=
  forall uid session,
    active_sessions w !! uid = Some session -> user_id session = uid.

(** One call of [process_message] by a client. *)
Record request : Type := {
  who : string;
  what : pyobj;
  draw_of : nat
}.

(** The calls of a list, one after the other on the same chatbot. *)
Fixpoint serve_all (requests : list request) (w : world)
    : list (outcome string) * world :=
  match requests with
  | [] => ([], w)
  | r :: requests' =>
      let '(reply, w1) := process_message (draw_of r) (who r) (what r) w in
      let '(replies, w2) := serve_all requests' w1 in
      (reply :: replies, w2)
  end.

(** The request is classified as an intent behind the authentication
    check. *)
Definition asks_for_account (r : request) : Prop :=
  sanitize_input (what r) <> ""
  /\ In (classify (sanitize_input (what r))) auth_required.

(** The exception that ends the pipeline on the sanitized text [s], if a
    collaborator raises one. *)
Definition fault_of (classify_intent : string -> logged IntentType)
    (extract_entities : string -> logged entities)
    (generate_response :
       IntentType -> UserSession -> option entities -> logged string)
    (s : string) (session : UserSession) : option exn :=
  match snd (classify_intent s) with
  | Raise e => Some e
  | Return intent =>
      match snd (extract_entities s) with
      | Raise e => Some e
      | Return d =>
          match snd (generate_response intent
                       (set_last_intent session intent) (Some d)) with
          | Raise e => Some e
          | Return _ => None
          end
      end
  end.

(** The line makes the loop stop: stripped and lower-cased it is one of
    the quit words. *)
Definition quits (raw : string) : bool :=
  bool_decide (str (lower (chars (str (strip (chars raw))))) ∈ Main.quit_words).

(** How the input ends the loop: at the first interrupt or quit line,
    whichever comes first, and otherwise by running out. *)
Fixpoint first_stop (events : list Main.event) : Main.ending :=
  match events with
  | [] => Main.EndOfInput
  | Main.Interrupt :: _ => Main.Interrupted
  | Main.Line raw :: events' =>
      if quits raw then Main.Quit else first_stop events'
  end.

(** Only the user of [main] may have a session. *)
Definition only_main_user (w : world) : Prop :=
  forall other,
    other <> Main.main_user_id -> active_sessions w !! other = None.

End FurtherVocabulary.

(** * Properties *)

(** ** Facts about the text primitives *)

Section TextFacts.

Lemma chars_str (l : list ascii) : chars (str l) = l.
Proof. apply list_ascii_of_string_of_list_ascii. Qed.

Lemma str_chars (s : string) : str (chars s) = s.
Proof. apply string_of_list_ascii_of_string. Qed.

Lemma startswith_spec (k s : list ascii) :
  startswith k s = true <-> exists t, s = k ++ t.
Proof.
  revert s. induction k as [|a k IH]; intros s; simpl.
  - split; [intros _; now exists s | reflexivity].
  - destruct s as [|b s].
    + split; [discriminate | intros [t Ht]; discriminate].
    + rewrite andb_true_iff, Ascii.eqb_eq, IH. split.
      * intros [-> [t ->]]. now exists t.
      * intros [t Ht]. injection Ht as -> ->. split; [reflexivity | now exists t].
Qed.

(** [k in s] holds exactly when [k] occurs somewhere in [s]. *)
Lemma contains_spec (k s : list ascii) :
  contains k s = true <-> exists a b, s = a ++ k ++ b.
Proof.
  induction s as [|c s IH]; simpl.
  - rewrite orb_false_r, startswith_spec. split.
    + intros [t Ht]. now exists [], t.
    + intros [a [b Hab]]. destruct a; [now exists b | discriminate].
  - rewrite orb_true_iff, startswith_spec, IH. split.
    + intros [[t Ht] | [a [b Hab]]].
      * now exists [], t.
      * exists (c :: a), b. simpl. now rewrite Hab.
    + intros [a [b Hab]]. destruct a as [|c' a]; simpl in Hab.
      * left. now exists b.
      * right. injection Hab as _ ->. now exists a, b.
Qed.

Lemma lstrip_In (c : ascii) (s : list ascii) : In c (lstrip s) -> In c s.
Proof.
  induction s as [|x s IH]; simpl; [tauto|].
  destruct (isspace x); simpl; tauto.
Qed.

Lemma strip_In (c : ascii) (s : list ascii) : In c (strip s) -> In c s.
Proof.
  unfold strip, rstrip. intros H.
  apply in_rev, lstrip_In in H. apply in_rev in H. now apply lstrip_In.
Qed.

(** Replacing one character by nothing removes its occurrences. *)
Lemma replace_char (c : ascii) (s : list ascii) :
  replace [c] [] s = List.filter (fun x => negb (Ascii.eqb c x)) s.
Proof.
  unfold replace. induction s as [|x s IH]; simpl; [reflexivity|].
  rewrite andb_true_r. destruct (Ascii.eqb c x); simpl; now rewrite IH.
Qed.

Lemma filter_all {A : Type} (p : A -> bool) (l : list A) :
  forallb p l = true -> List.filter p l = l.
Proof.
  induction l as [|x l IH]; simpl; [reflexivity|].
  rewrite andb_true_iff. intros [-> Hl]. now rewrite IH.
Qed.

End TextFacts.

(** ** Facts about the matcher *)

Section ReFacts.

Lemma match_at_class (p : ascii -> bool) (sn rs : list ascii) (c : ascii) :
  match_at (Class p) sn (c :: rs)
  = if p c then Some (Hit [c] None) else None.
Proof.
  unfold match_at. simpl. unfold eat. simpl.
  destruct (p c); [|reflexivity]. simpl.
  replace (S (length sn) - length sn) with 1 by lia. reflexivity.
Qed.

Lemma scan_class (p : ascii -> bool) (rs sn : list ascii) :
  rebuild [] (scan (Class p) sn rs 0) = List.filter (fun c => negb (p c)) rs.
Proof.
  revert sn. induction rs as [|c rs IH]; intros sn; [reflexivity|].
  cbn [scan]. rewrite match_at_class.
  destruct (p c) eqn:Hc; simpl; rewrite Hc, IH; reflexivity.
Qed.

(** Substituting nothing for a one-character class filters the class out. *)
Lemma sub_class (p : ascii -> bool) (s : list ascii) :
  sub (Class p) [] s = List.filter (fun c => negb (p c)) s.
Proof. apply scan_class. Qed.

(** A greedy bounded repetition falls back on the rest of the pattern. *)
Lemma rep_upto_fallback (step : kont -> kont) (n : nat) (k : kont)
    (st : mstate) :
  is_Some (k st) -> is_Some (rep_upto step n k st).
Proof.
  intros Hk. destruct n as [|n]; simpl; [exact Hk|].
  destruct (step _ st); [eauto | exact Hk].
Qed.

(** A repetition of exactly [n] digits consumes [n] digits. *)
Lemma rep_exact_digits (n : nat) (k : kont) (st : mstate) :
  is_Some (rep_exact (run (Class is_digit)) n k st)
  <-> exists ds rs,
      rest st = ds ++ rs /\ length ds = n /\ forallb is_digit ds = true
      /\ is_Some (k (MState (rev ds ++ seen st) rs (group1 st))).
Proof.
  revert st. induction n as [|n IH]; intros [sn rs0 g]; cbn [rep_exact].
  - split.
    + intros Hk. exists [], rs0. repeat split; assumption.
    + intros [ds [rs [Hrs [Hlen [_ Hk]]]]].
      destruct ds; [|discriminate]. simpl in *. now subst.
  - cbn [run]. unfold eat. cbn [rest seen group1].
    destruct rs0 as [|c rs0].
    + split; [intros [x Hx]; discriminate|].
      intros [ds [rs [Hrs [Hlen _]]]]. destruct ds; discriminate.
    + destruct (is_digit c) eqn:Hc.
      * rewrite IH. cbn [rest seen group1]. split.
        -- intros [ds [rs [-> [Hlen [Hds Hk]]]]].
           exists (c :: ds), rs. simpl. rewrite Hc, Hlen.
           repeat split; [exact Hds|]. now rewrite <- app_assoc.
        -- intros [ds [rs [Hrs [Hlen [Hds Hk]]]]].
           destruct ds as [|c' ds]; [discriminate|].
           simpl in *. injection Hrs as <- ->. injection Hlen as Hlen.
           apply andb_true_iff in Hds as [_ Hds].
           exists ds, rs. repeat split; try assumption.
           now rewrite <- app_assoc in Hk.
      * split; [intros [x Hx]; discriminate|].
        intros [ds [rs [Hrs [Hlen [Hds _]]]]].
        destruct ds as [|c' ds]; [discriminate|].
        simpl in *. injection Hrs as <- ->. rewrite Hc in Hds. discriminate.
Qed.

Lemma at_eol_digit (c : ascii) (rs : list ascii) :
  is_digit c = true -> at_eol (c :: rs) = false.
Proof.
  intros Hc. destruct rs; [|reflexivity]. simpl.
  destruct (Ascii.eqb c newline) eqn:Hn; [|reflexivity].
  apply Ascii.eqb_eq in Hn. subst c. discriminate Hc.
Qed.

Lemma rep_upto_S (step : kont -> kont) (n : nat) (k : kont) (st : mstate) :
  rep_upto step (S n) k st
  = match step (rep_upto step n k) st with
    | Some r => Some r
    | None => k st
    end.
Proof. reflexivity. Qed.

Lemma run_class (p : ascii -> bool) (k : kont) (sn rs : list ascii)
    (g : option (list ascii)) :
  run (Class p) k (MState sn rs g)
  = match rs with
    | c :: rs' => if p c then k (MState (c :: sn) rs' g) else None
    | [] => None
    end.
Proof. reflexivity. Qed.

Lemma run_eol (st : mstate) :
  run Eol Some st = if at_eol (rest st) then Some st else None.
Proof. reflexivity. Qed.

(** Up to [n] more digits and then the end of the text: the greedy
    repetition stops where the digits stop. *)
Lemma rep_upto_digits_eol (n : nat) (st : mstate) :
  is_Some (rep_upto (run (Class is_digit)) n (run Eol Some) st)
  <-> exists ds rs,
      rest st = ds ++ rs /\ length ds <= n /\ forallb is_digit ds = true
      /\ at_eol rs = true.
Proof.
  revert st. induction n as [|n IH]; intros [sn rs0 g].
  - change (rep_upto (run (Class is_digit)) 0 (run Eol Some)
              (MState sn rs0 g))
      with (run Eol Some (MState sn rs0 g)).
    rewrite run_eol. cbn [rest]. split.
    + destruct (at_eol rs0) eqn:He; [|intros [x Hx]; discriminate].
      intros _. exists [], rs0. repeat split; [simpl; lia | exact He].
    + intros [ds [rs [Hrs [Hlen [_ He]]]]].
      destruct ds; [|simpl in Hlen; lia]. simpl in Hrs. subst rs0.
      rewrite He. eauto.
  - rewrite rep_upto_S, run_class, run_eol. cbn [rest].
    destruct rs0 as [|c rs0].
    + cbn [at_eol]. split; [|eauto].
      intros _. exists [], []. repeat split; simpl; lia.
    + destruct (is_digit c) eqn:Hc.
      * specialize (IH (MState (c :: sn) rs0 g)). cbn [rest] in IH.
        rewrite (at_eol_digit c rs0 Hc).
        destruct (rep_upto (run (Class is_digit)) n (run Eol Some)
                    (MState (c :: sn) rs0 g)) as [r|].
        -- split; [|eauto]. intros _.
           destruct (proj1 IH) as [ds [rs [-> [Hlen [Hds He]]]]]; [eauto|].
           exists (c :: ds), rs. simpl. rewrite Hc.
           repeat split; [lia | exact Hds | exact He].
        -- split; [intros [x Hx]; discriminate|].
           intros [ds [rs [Hrs [Hlen [Hds He]]]]].
           destruct ds as [|c' ds]; simpl in Hrs, Hds, Hlen.
           ++ subst rs. rewrite (at_eol_digit c rs0 Hc) in He. discriminate.
           ++ injection Hrs as <- ->. apply andb_true_iff in Hds as [_ Hds].
              destruct (proj2 IH) as [x Hx]; [|discriminate].
              exists ds, rs. repeat split; [lia | exact Hds | exact He].
      * split.
        -- destruct (at_eol (c :: rs0)) eqn:He; [|intros [x Hx]; discriminate].
           intros _. exists [], (c :: rs0).
           repeat split; [simpl; lia | exact He].
        -- intros [ds [rs [Hrs [Hlen [Hds He]]]]].
           destruct ds as [|c' ds]; simpl in Hrs, Hds.
           ++ subst rs. rewrite He. eauto.
           ++ injection Hrs as <- ->. rewrite Hc in Hds. discriminate.
Qed.

Example findall_demo :
  findall (Cat (Opt (Lit "$")) (Grp (Rep 1 3 (Class is_digit))))
          (chars "a $12 3456")
  = [chars "12"; chars "345"; chars "6"]
  /\ sub (Lit "a") (chars "-") (chars "banana") = chars "b-n-n-".
Proof. split; reflexivity. Qed.

End ReFacts.

(** ** Floats *)

Example float_demo :
  map (fun s => Float64.float_of_string (chars s))
      ["0.1"; "+.5e-3"; "1_000"; "1__0"; "-0"; "1e"; " 1.e5 "; "-iNf"; "2.5";
       "-5"; "-2.5"]
  = [Some (S754_finite false 7205759403792794 (-56));
     Some (S754_finite false 4611686018427388 (-63));
     Some (Float64.of_Z 1000); None; Some (S754_zero true); None;
     Some (Float64.of_Z 100000); Some (S754_infinity true);
     Some (S754_finite false 5629499534213120 (-51));
     Some (Float64.of_Z (-5));
     Some (S754_finite true 5629499534213120 (-51))].
Proof. vm_compute. reflexivity. Qed.

(** ** [SecurityValidator] *)

Section SecurityValidatorProperties.
Import SecurityValidator.

(** C6. On a string free of the five blacklisted characters
    [sanitize_input] is [strip]; its output never holds one of the five;
    and a value that is not a string is sanitized to the empty string. *)
Theorem sanitize_input_spec :
  (forall t : string,
      forallb (fun c => negb (harmful c)) (chars t) = true ->
      sanitize_input (PyStr t) = str (strip (chars t)))
  /\ (forall (t : string) (c : ascii),
        In c (chars (sanitize_input (PyStr t))) -> harmful c = false)
  /\ (forall x : pyobj, is_str x = false -> sanitize_input x = "").
Proof.
  split; [|split].
  - intros t Ht. unfold sanitize_input, harmful_pattern.
    now rewrite sub_class, filter_all.
  - intros t c. unfold sanitize_input, harmful_pattern.
    rewrite chars_str, sub_class. intros H.
    apply strip_In, filter_In in H. destruct H as [_ H].
    now apply negb_true_iff in H.
  - intros [s| | | |]; simpl; [discriminate | reflexivity ..].
Qed.

Lemma sanitize_input_spec_witness :
  sanitize_input (PyStr "  send 20 to Bob ") = "send 20 to Bob"
  /\ harmful ">" = true
  /\ ~ In ">"%char (chars (sanitize_input (PyStr "<b>hi</b>; 'x' ")))
  /\ sanitize_input (PyInt 42) = "".
Proof.
  destruct sanitize_input_spec as [Hclean [Hout Hother]].
  split; [|split; [|split]].
  - exact (Hclean "  send 20 to Bob " eq_refl).
  - reflexivity.
  - intros Hin. pose proof (Hout _ _ Hin) as Hc. vm_compute in Hc. discriminate Hc.
  - exact (Hother (PyInt 42) eq_refl).
Defined.

(** The three format examples of the specification. *)
Lemma validate_account_number_examples :
  validate_account_number "12345" = false
  /\ validate_account_number "1234567890" = true
  /\ validate_account_number "12345678901234" = false.
Proof. repeat split; reflexivity. Qed.

(** What the format check accepts: 10 to 12 digits, then the end of the
    text or one line feed at the end of the text. *)
Lemma validate_account_number_accepts (account_number : string) :
  validate_account_number account_number = true
  <-> exists ds,
      forallb is_digit ds = true /\ 10 <= length ds <= 12
      /\ (chars account_number = ds \/ chars account_number = ds ++ [newline]).
Proof.
  unfold validate_account_number, re_match, match_at, account_format.
  set (st := MState [] (chars account_number) None).
  change (run (Cat Bol (Cat (Rep 10 12 (Class is_digit)) Eol)) Some st)
    with (rep_exact (run (Class is_digit)) 10
            (rep_upto (run (Class is_digit)) (12 - 10) (run Eol Some)) st).
  assert (is_Some (rep_exact (run (Class is_digit)) 10
                     (rep_upto (run (Class is_digit)) (12 - 10) (run Eol Some)) st)
          <-> exists ds,
              forallb is_digit ds = true /\ 10 <= length ds <= 12
              /\ (chars account_number = ds
                  \/ chars account_number = ds ++ [newline])) as Hiff.
  { rewrite rep_exact_digits. cbn [rest seen group1 st Nat.sub]. split.
    - intros [ds1 [rs1 [Hl [Hlen1 [Hd1 H2]]]]].
      apply rep_upto_digits_eol in H2 as [ds2 [rs2 [Hrs [Hlen2 [Hd2 He]]]]].
      cbn [rest] in Hrs. subst rs1.
      exists (ds1 ++ ds2). rewrite forallb_app, Hd1, Hd2, length_app.
      repeat split; [lia | lia |].
      rewrite Hl. destruct rs2 as [|c [|c' rs2]]; [| |discriminate].
      + left. now rewrite app_nil_r.
      + right. simpl in He. apply Ascii.eqb_eq in He. subst c.
        now rewrite app_assoc.
    - intros [ds [Hd [[Hlo Hhi] Hl]]].
      assert (forallb is_digit (firstn 10 ds) = true
              /\ forallb is_digit (skipn 10 ds) = true) as [Hd1 Hd2].
      { rewrite <- (firstn_skipn 10 ds), forallb_app in Hd.
        now apply andb_true_iff in Hd. }
      assert (exists tail, chars account_number = ds ++ tail
                           /\ at_eol tail = true) as [tail [Htail He]].
      { destruct Hl as [Hl | Hl].
        - exists []. now rewrite app_nil_r.
        - exists [newline]. split; [exact Hl | reflexivity]. }
      exists (firstn 10 ds), (skipn 10 ds ++ tail).
      repeat split.
      + now rewrite app_assoc, firstn_skipn.
      + rewrite length_firstn. lia.
      + exact Hd1.
      + apply rep_upto_digits_eol. cbn [rest].
        exists (skipn 10 ds), tail.
        repeat split; [rewrite length_skipn; lia | exact Hd2 | exact He]. }
  rewrite <- Hiff.
  destruct (rep_exact _ _ _ st); split; intros H.
  - eauto.
  - reflexivity.
  - discriminate H.
  - destruct H as [x Hx]. discriminate Hx.
Qed.

(** C5. The format check accepts a text that is not made of 10 to 12
    digits: ten digits followed by a line feed. *)
Theorem validate_account_number_trailing_newline :
  validate_account_number ("1234567890" +:+ nl) = true
  /\ String.length ("1234567890" +:+ nl) = 11
  /\ forallb is_digit (chars ("1234567890" +:+ nl)) = false.
Proof. repeat split; reflexivity. Qed.

Lemma validate_amount_unfold (s : string) :
  validate_amount (PyStr s)
  = match Float64.float_of_string (cleaned s) with
    | Some v => Return (Float64.gt_zero v, v)
    | None => Return (false, Float64.zero)
    end.
Proof.
  unfold validate_amount, cleaned. simpl. unfold py_float.
  rewrite !chars_str.
  change (chars "$") with ["$"%char]. change (chars ",") with [","%char].
  change (chars "") with (@nil ascii).
  rewrite !replace_char.
  destruct (Float64.float_of_string _); reflexivity.
Qed.


(** C2, as the specification states its first example: refuted. *)
Lemma validate_amount_minus_five_not_zero :
  validate_amount (PyStr "-5") <> Return (false, Float64.zero).
Proof. vm_compute. discriminate. Qed.

(** C2, amended. [validate_amount] parses its argument without dollar
    signs and commas; it answers [(true, v)] exactly when the parse gives
    a [v] above zero, [(false, v)] with the parsed [v] when the parse
    succeeds otherwise, and [(false, 0.0)] when the parse fails; so
    ["-5"] gives [(false, -5.0)] and ["$1,000.00"] gives [(true, 1000.0)]. *)
Theorem validate_amount_spec :
  (forall (s : string) (v : float),
      validate_amount (PyStr s) = Return (true, v)
      <-> Float64.float_of_string (cleaned s) = Some v
          /\ Float64.gt_zero v = true)
  /\ (forall (s : string) (v : float),
        Float64.float_of_string (cleaned s) = Some v ->
        validate_amount (PyStr s) = Return (Float64.gt_zero v, v))
  /\ (forall s : string,
        Float64.float_of_string (cleaned s) = None ->
        validate_amount (PyStr s) = Return (false, Float64.zero))
  /\ validate_amount (PyStr "-5") = Return (false, Float64.of_Z (-5))
  /\ validate_amount (PyStr "$1,000.00") = Return (true, Float64.of_Z 1000).
Proof.
  split; [|split; [|split; [|split]]].
  - intros s v. rewrite validate_amount_unfold.
    destruct (Float64.float_of_string (cleaned s)) as [v'|].
    + split.
      * intros H. injection H as Hgt ->. now split.
      * intros [H Hgt]. injection H as ->. now rewrite Hgt.
    + split; [discriminate | intros [H _]; discriminate].
  - intros s v H. now rewrite validate_amount_unfold, H.
  - intros s H. now rewrite validate_amount_unfold, H.
  - vm_compute. reflexivity.
  - vm_compute. reflexivity.
Qed.

Lemma validate_amount_spec_witness :
  validate_amount (PyStr "$2.50")
  = Return (true, S754_finite false 5629499534213120 (-51))
  /\ validate_amount (PyStr "0") = Return (false, S754_zero false)
  /\ validate_amount (PyStr "ten dollars") = Return (false, Float64.zero).
Proof.
  destruct validate_amount_spec as [Hiff [Hsome [Hnone _]]].
  split; [|split].
  - apply (proj2 (Hiff "$2.50" _)). split; vm_compute; reflexivity.
  - apply (Hsome "0" (S754_zero false)). vm_compute. reflexivity.
  - apply (Hnone "ten dollars"). vm_compute. reflexivity.
Defined.

End SecurityValidatorProperties.

(** ** [IntentClassifier] *)

Section IntentClassifierProperties.
Import IntentClassifier.

Lemma any_keyword_spec (text : list ascii) (keywords : list string) :
  any_keyword text keywords = true
  <-> exists keyword a b, In keyword keywords /\ text = a ++ chars keyword ++ b.
Proof.
  unfold any_keyword. rewrite existsb_exists. split.
  - intros [k [Hin Hk]]. apply contains_spec in Hk as [a [b Hab]]. eauto.
  - intros [k [a [b [Hin Hab]]]]. exists k. split; [exact Hin|].
    apply contains_spec. eauto.
Qed.

(** The scan stops at the first entry with a keyword in the text. *)
Lemma first_match_spec (text : list ascii)
    (items : list (IntentType * list string)) :
  match first_match text items with
  | Some intent =>
      exists pre keywords post,
        items = pre ++ (intent, keywords) :: post
        /\ any_keyword text keywords = true
        /\ Forall (fun item => any_keyword text (snd item) = false) pre
  | None => Forall (fun item => any_keyword text (snd item) = false) items
  end.
Proof.
  induction items as [|[intent keywords] items IH]; simpl; [constructor|].
  destruct (any_keyword text keywords) eqn:Hany.
  - exists [], keywords, items. repeat split; [exact Hany | constructor].
  - destruct (first_match text items) as [found|].
    + destruct IH as [pre [kws [post [-> [Hk Hpre]]]]].
      exists ((intent, keywords) :: pre), kws, post.
      repeat split; [exact Hk | now constructor].
    + now constructor.
Qed.

Lemma intent_keywords_order : map fst intent_keywords = declared_order.
Proof. reflexivity. Qed.

Lemma intent_keywords_NoDup : NoDup (map fst intent_keywords).
Proof. rewrite intent_keywords_order. unfold declared_order. compute_done. Qed.

Lemma keyword_occurs_any (intent : IntentType) (keywords : list string)
    (text : list ascii) :
  In (intent, keywords) intent_keywords ->
  keyword_occurs intent text <-> any_keyword text keywords = true.
Proof.
  intros Hin. rewrite any_keyword_spec. split.
  - intros [kws [k [a [b [Hin' [Hk Hab]]]]]].
    assert (kws = keywords) as ->.
    { pose proof intent_keywords_NoDup as Hnd.
      revert Hin Hin' Hnd. generalize intent_keywords as items.
      induction items as [|[i ks] items IH]; simpl; [tauto|].
      intros H1 H2 Hnd. apply NoDup_cons in Hnd as [Hnotin Hnd].
      destruct H1 as [H1|H1], H2 as [H2|H2].
      - congruence.
      - injection H1 as -> ->. exfalso. apply Hnotin.
        apply list_elem_of_In, in_map_iff. now exists (intent, kws).
      - injection H2 as -> ->. exfalso. apply Hnotin.
        apply list_elem_of_In, in_map_iff. now exists (intent, keywords).
      - now apply IH. }
    eauto.
  - intros [k [a [b [Hk Hab]]]]. exists keywords, k, a, b. auto.
Qed.

(** C4. [classify_intent] returns on every input.  It scans the intents
    in the declared order over the lower-cased text and returns the first
    one with a keyword occurring in it, and [UNKNOWN] when no intent has
    one. *)
Theorem classify_intent_spec (user_input : string) :
  let text := lower (chars user_input) in
  map fst intent_keywords = declared_order
  /\ exists intent,
      classify_intent user_input
      = ([info ("Intent classified: " +:+ value intent)], Return intent)
      /\ ((exists pre post,
             declared_order = pre ++ intent :: post
             /\ keyword_occurs intent text
             /\ forall earlier, In earlier pre -> ~ keyword_occurs earlier text)
          \/ (intent = UNKNOWN
              /\ forall other, ~ keyword_occurs other text)).
Proof.
  intros text. split; [reflexivity|].
  exists (classify user_input). split; [reflexivity|].
  unfold classify. fold text.
  pose proof (first_match_spec text intent_keywords) as Hspec.
  pose proof intent_keywords_NoDup as Hnd.
  destruct (first_match text intent_keywords) as [intent|]; simpl.
  - left. destruct Hspec as [pre [keywords [post [Hitems [Hk Hpre]]]]].
    exists (map fst pre), (map fst post). split; [|split].
    + rewrite <- intent_keywords_order, Hitems, map_app. reflexivity.
    + apply (keyword_occurs_any intent keywords); [|exact Hk].
      rewrite Hitems. apply in_elt.
    + intros earlier Hin Hocc.
      apply in_map_iff in Hin as [[j kws] [Hj Hin]]. simpl in Hj. subst j.
      apply (keyword_occurs_any earlier kws) in Hocc.
      * rewrite Forall_forall in Hpre.
        specialize (Hpre (earlier, kws)). simpl in Hpre.
        rewrite Hpre in Hocc; [discriminate|].
        now apply list_elem_of_In.
      * rewrite Hitems. apply in_or_app. now left.
  - right. split; [reflexivity|].
    intros other [kws [k [a [b [Hin [Hk Hab]]]]]].
    rewrite Forall_forall in Hspec.
    specialize (Hspec (other, kws)). simpl in Hspec.
    assert (any_keyword text kws = true) as Hany.
    { apply any_keyword_spec. eauto. }
    rewrite Hspec in Hany; [discriminate|]. now apply list_elem_of_In.
Qed.

Lemma classify_intent_spec_witness :
  snd (classify_intent "help me check my balance") = Return ACCOUNT_BALANCE
  /\ keyword_occurs ACCOUNT_BALANCE (lower (chars "help me check my balance"))
  /\ ~ keyword_occurs GREETING (lower (chars "help me check my balance")).
Proof.
  destruct (classify_intent_spec "help me check my balance")
    as [_ [intent [Hrun Hwhy]]].
  assert (intent = ACCOUNT_BALANCE) as ->.
  { vm_compute in Hrun. now injection Hrun as _ <-. }
  split; [reflexivity|].
  destruct Hwhy as [[pre [post [Horder [Hocc Hearlier]]]] | [Hunknown _]];
    [|discriminate Hunknown].
  split; [exact Hocc|].
  apply Hearlier.
  destruct pre as [|first pre]; simpl in Horder.
  - discriminate Horder.
  - injection Horder as <- _. now left.
Defined.

(** The tie-break of the specification: the keyword of the earlier
    intent wins. *)
Example classify_tie_break :
  classify "help me check my balance" = ACCOUNT_BALANCE
  /\ classify "HELLO, I need a loan" = GREETING
  /\ classify "what time is it" = UNKNOWN.
Proof. repeat split; reflexivity. Qed.

End IntentClassifierProperties.

(** ** [ResponseGenerator] *)

Section ResponseGeneratorProperties.
Import ResponseGenerator.

(** C3. For an unauthenticated session and an intent among
    account_balance, transaction_history and transfer_money the reply is
    the fixed verification request, whatever the entities and whatever
    the handlers would do: none of them runs. *)
Theorem generate_response_auth_gate (H : Handlers) (intent : IntentType)
    (session : UserSession) (extracted_data : option entities) :
  In intent [ACCOUNT_BALANCE; TRANSACTION_HISTORY; TRANSFER_MONEY] ->
  authenticated session = false ->
  generate_response intent session extracted_data
  = Return _request_authentication.
Proof.
  intros Hin Hauth. unfold generate_response. rewrite Hauth.
  rewrite bool_decide_eq_true_2; [reflexivity|].
  now apply list_elem_of_In.
Qed.

Lemma generate_response_auth_gate_witness :
  @generate_response failing_handlers TRANSFER_MONEY (new_session "u1")
    (Some (<["amount" := PyStr "20"]> ∅))
  = Return _request_authentication
  /\ @generate_response failing_handlers LOAN_INFO (new_session "u1") None
     = Raise (Exn (OtherException "RuntimeError") "handler ran").
Proof.
  split.
  - apply (generate_response_auth_gate failing_handlers TRANSFER_MONEY).
    + simpl. tauto.
    + reflexivity.
  - reflexivity.
Defined.

(** The generator of the class never raises. *)
Lemma generate_response_returns (draw : nat) (intent : IntentType)
    (session : UserSession) (extracted_data : option entities) :
  exists reply,
    @generate_response (own_handlers draw) intent session extracted_data
    = Return reply.
Proof.
  unfold generate_response.
  destruct (_ && _); [eauto|].
  destruct intent; cbn; eauto.
Qed.

End ResponseGeneratorProperties.

(** ** Entity extraction *)

Section ExtractEntitiesProperties.
Import FintechChatbot.

(** Each key is present exactly when its pattern matched, and then holds
    the first match. *)
Lemma extract_entities_lookup (message : string) :
  _extract_entities message !! "amount"
  = as_entity <$> head (findall amount_pattern (chars message))
  /\ _extract_entities message !! "account_number"
     = as_entity <$> head (findall account_pattern (chars message))
  /\ forall key : string,
      key <> "amount" -> key <> "account_number" ->
      _extract_entities message !! key = None.
Proof.
  unfold _extract_entities.
  destruct (findall amount_pattern (chars message)) as [|amount amounts];
    destruct (findall account_pattern (chars message)) as [|account accounts];
    simpl; repeat split; intros; by simplify_map_eq.
Qed.

(** C8. On the sentence of the specification the extractor finds the
    amount [1,200.50] and the account number [1234567890]; on every
    message a key is in the mapping exactly when its pattern matched,
    with the first match as its value, and no value is [None]. *)
Theorem extract_entities_spec :
  (let found :=
     _extract_entities "Please send $1,200.50 to account 1234567890" in
   found !! "amount" = Some (PyStr "1,200.50")
   /\ found !! "account_number" = Some (PyStr "1234567890"))
  /\ forall message : string,
      _extract_entities message !! "amount"
      = as_entity <$> head (findall amount_pattern (chars message))
      /\ _extract_entities message !! "account_number"
         = as_entity <$> head (findall account_pattern (chars message))
      /\ (forall key : string,
            key <> "amount" -> key <> "account_number" ->
            _extract_entities message !! key = None)
      /\ (forall (key : string) (v : pyobj),
            _extract_entities message !! key = Some v -> v <> PyNone).
Proof.
  split.
  - destruct (extract_entities_lookup
                "Please send $1,200.50 to account 1234567890") as [Ha [Hb _]].
    cbv zeta. rewrite Ha, Hb. split; vm_compute; reflexivity.
  - intros message.
    destruct (extract_entities_lookup message) as [Ha [Hb Hother]].
    repeat split; [exact Ha | exact Hb | exact Hother |].
    intros key v Hv ->.
    destruct (decide (key = "amount")) as [->|Hk1].
    { rewrite Ha in Hv.
      destruct (head (findall amount_pattern (chars message)));
        simpl in Hv; discriminate Hv. }
    destruct (decide (key = "account_number")) as [->|Hk2].
    { rewrite Hb in Hv.
      destruct (head (findall account_pattern (chars message)));
        simpl in Hv; discriminate Hv. }
    rewrite Hother in Hv by assumption. discriminate.
Qed.

Lemma extract_entities_spec_witness :
  _extract_entities "pay 25 now" !! "account_number" = None
  /\ _extract_entities "pay 25 now" !! "date" = None
  /\ _extract_entities "pay 25 now" !! "amount" <> Some PyNone.
Proof.
  destruct extract_entities_spec as [_ Hall].
  destruct (Hall "pay 25 now") as [_ [Hb [Hother Hval]]].
  split; [|split].
  - rewrite Hb. vm_compute. reflexivity.
  - apply Hother; discriminate.
  - intros Hv. exact (Hval "amount" PyNone Hv eq_refl).
Defined.

(** The amount pattern matches wherever a digit stands. *)
Lemma amount_pattern_at_digit (sn rs : list ascii) (c : ascii) :
  is_digit c = true ->
  is_Some (match_at amount_pattern sn (c :: rs)).
Proof.
  intros Hc. unfold match_at.
  assert (is_Some (run amount_pattern Some (MState sn (c :: rs) None))) as [st Hst].
  { unfold amount_pattern, Opt. cbn [run rep_exact Nat.sub].
    apply rep_upto_fallback. cbn [run rep_exact Nat.sub].
    unfold eat at 1. cbn [rest]. rewrite Hc.
    apply rep_upto_fallback. cbn [run].
    apply rep_upto_fallback. cbn [rep_exact Nat.sub].
    apply rep_upto_fallback. eauto. }
  rewrite Hst. eauto.
Qed.

Lemma amount_found (rs : list ascii) :
  existsb is_digit rs = true ->
  forall sn, hits amount_pattern (scan amount_pattern sn rs 0) <> [].
Proof.
  induction rs as [|c rs IH]; [discriminate|].
  intros Hd sn. cbn [scan].
  destruct (match_at amount_pattern sn (c :: rs)) as [h|] eqn:Hm.
  - discriminate.
  - destruct (is_digit c) eqn:Hc.
    + destruct (amount_pattern_at_digit sn rs c Hc) as [h Hh]. congruence.
    + simpl in Hd. rewrite Hc in Hd. cbn [hits]. now apply IH.
Qed.

(** C10. Every message with a digit in it gets an [amount] entity, the
    first match of the amount pattern; a message made of a ten-digit
    account number gets its first three digits as amount. *)
Theorem amount_on_any_digit :
  (forall message : string,
      existsb is_digit (chars message) = true ->
      exists first,
        head (findall amount_pattern (chars message)) = Some first
        /\ _extract_entities message !! "amount" = Some (PyStr (str first)))
  /\ _extract_entities "1234567890" !! "amount" = Some (PyStr "123")
  /\ _extract_entities "1234567890" !! "account_number"
     = Some (PyStr "1234567890").
Proof.
  split; [|split].
  - intros message Hd.
    destruct (extract_entities_lookup message) as [Ha _].
    pose proof (amount_found (chars message) Hd []) as Hne.
    fold (findall amount_pattern (chars message)) in Hne.
    destruct (findall amount_pattern (chars message)) as [|first others];
      [congruence|].
    exists first. split; [reflexivity | exact Ha].
  - destruct (extract_entities_lookup "1234567890") as [Ha _].
    rewrite Ha. vm_compute. reflexivity.
  - destruct (extract_entities_lookup "1234567890") as [_ [Hb _]].
    rewrite Hb. vm_compute. reflexivity.
Qed.

Lemma amount_on_any_digit_witness :
  exists first,
    head (findall amount_pattern (chars "call me at 5 pm")) = Some first
    /\ _extract_entities "call me at 5 pm" !! "amount" = Some (PyStr (str first)).
Proof.
  apply (proj1 amount_on_any_digit "call me at 5 pm"). reflexivity.
Defined.

End ExtractEntitiesProperties.

(** ** The orchestrator *)

Section OrchestratorProperties.
Import SecurityValidator FintechChatbot.

Variable classify_intent : string -> logged IntentType.
Variable extract_entities : string -> logged entities.
Variable generate_response :
  IntentType -> UserSession -> option entities -> logged string.

Abbreviation serve := (process_message_with classify_intent extract_entities
                                        generate_response).
Abbreviation raised := (raised_inside classify_intent extract_entities
                                      generate_response).
Abbreviation reply := (reply_on classify_intent extract_entities
                                generate_response).

Lemma get_session_eq (uid : string) (w : world) :
  get_session uid w = (Return (current_session uid w), entered uid w).
Proof.
  unfold entered, current_session, get_session, create_session.
  destruct (active_sessions w !! uid); reflexivity.
Qed.

Lemma entered_lookup (uid : string) (w : world) :
  active_sessions (entered uid w) !! uid = Some (current_session uid w).
Proof.
  unfold entered, current_session, get_session, create_session.
  destruct (active_sessions w !! uid) eqn:Hs; simpl;
    [exact Hs | apply lookup_insert_eq].
Qed.

Lemma entered_log (uid : string) (w : world) :
  log (entered uid w)
  = log w ++ match active_sessions w !! uid with
             | Some _ => []
             | None => [info ("New session created for user: " +:+ uid)]
             end.
Proof.
  unfold entered, get_session, create_session.
  destruct (active_sessions w !! uid); simpl;
    [now rewrite app_nil_r | reflexivity].
Qed.

Ltac step_pipeline :=
  unfold process_message_with, try_catch, pipeline, on_error, emit, call,
    assign_last_intent, mbind, M_bind, mret, M_ret.

Lemma serve_reply (uid : string) (message : pyobj) (w : world) :
  fst (serve uid message w)
  = Return (if bool_decide (sanitize_input message = "")
            then invalid_message
            else reply (sanitize_input message) (current_session uid w)).
Proof.
  step_pipeline. unfold reply_on. rewrite get_session_eq.
  set (s := sanitize_input message).
  set (session := current_session uid w).
  destruct (bool_decide (s = "")); [reflexivity|].
  destruct (classify_intent s) as [l1 [intent|e1]]; cbn; [|reflexivity].
  destruct (extract_entities s) as [l2 [d|e2]]; cbn; [|reflexivity].
  destruct (generate_response intent (set_last_intent session intent) (Some d))
    as [l3 [reply|e3]]; reflexivity.
Qed.

(** C1. Whatever its collaborators do, [process_message] returns a
    string; and when one of them raises, the string is the fixed
    apology. *)
Theorem process_message_never_raises (uid : string) (message : pyobj)
    (w : world) :
  (exists reply, fst (serve uid message w) = Return reply)
  /\ (sanitize_input message <> "" ->
      raised (sanitize_input message) (current_session uid w) ->
      fst (serve uid message w) = Return apology).
Proof.
  rewrite serve_reply. split; [eexists; reflexivity|].
  intros Hne Hr. rewrite bool_decide_eq_false_2 by exact Hne.
  f_equal. unfold reply_on.
  destruct Hr as [[e H]|[i [Hi [[e H]|[d [e [Hd H]]]]]]].
  - now rewrite H.
  - now rewrite Hi, H.
  - now rewrite Hi, Hd, H.
Qed.

(** C7. When the sanitized message is empty the reply is the fixed
    invalid-message text and the state is the one left by session
    handling, whatever the collaborators are: none of them is consulted
    and nothing is logged for the message.  A value that is not a string
    and the empty string are such messages. *)
Theorem empty_message_short_circuit (uid : string) (message : pyobj)
    (w : world) :
  (sanitize_input message = "" ->
   serve uid message w = (Return invalid_message, entered uid w)
   /\ log (entered uid w)
      = log w ++ match active_sessions w !! uid with
                 | Some _ => []
                 | None => [info ("New session created for user: " +:+ uid)]
                 end)
  /\ (is_str message = false \/ message = PyStr "" ->
      sanitize_input message = "").
Proof.
  split.
  - intros Hs. split; [|apply entered_log].
    step_pipeline. rewrite get_session_eq, Hs. reflexivity.
  - intros [H| ->]; [|reflexivity].
    destruct message; [discriminate | reflexivity ..].
Qed.

(** C9. Once the classifier has returned an intent for a non-empty
    sanitized message, the registry holds the session with that intent as
    [last_intent], whatever extraction and generation do afterwards; the
    generator receives the session so updated, and when it raises the
    reply is the apology and the new [last_intent] stays. *)
Theorem last_intent_set_before_generation (uid : string) (message : pyobj)
    (w : world) (intent : IntentType) (l1 : list log_record) :
  let s := sanitize_input message in
  let session := set_last_intent (current_session uid w) intent in
  s <> "" ->
  classify_intent s = (l1, Return intent) ->
  active_sessions (snd (serve uid message w)) !! uid = Some session
  /\ last_intent session = Some intent
  /\ forall d e l2 l3,
      extract_entities s = (l2, Return d) ->
      generate_response intent session (Some d) = (l3, Raise e) ->
      fst (serve uid message w) = Return apology.
Proof.
  intros s session Hne Hc. step_pipeline. rewrite get_session_eq.
  fold s. rewrite bool_decide_eq_false_2 by exact Hne.
  rewrite Hc. cbn. fold session.
  split; [|split; [reflexivity|]].
  - destruct (extract_entities s) as [l2 [d|e2]]; cbn.
    + destruct (generate_response intent session (Some d)) as [l3 [r|e3]];
        cbn; apply lookup_insert_eq.
    + apply lookup_insert_eq.
  - intros d e l2 l3 He Hg. rewrite He. cbn. rewrite Hg. reflexivity.
Qed.

End OrchestratorProperties.

Section OrchestratorWitnesses.
Import SecurityValidator FintechChatbot.

Lemma process_message_never_raises_witness :
  fst (process_message_with broken_classifier own_extractor broken_generator
         "u1" (PyStr "hello") init)
  = Return apology.
Proof.
  apply (proj2 (process_message_never_raises broken_classifier own_extractor
                  broken_generator "u1" (PyStr "hello") init)).
  - vm_compute. discriminate.
  - left. eexists. reflexivity.
Defined.

Lemma empty_message_short_circuit_witness :
  (process_message_with broken_classifier own_extractor broken_generator
     "u1" (PyStr " ;; ") init
   = (Return invalid_message, entered "u1" init)
   /\ log (entered "u1" init)
      = log init ++ [info "New session created for user: u1"])
  /\ sanitize_input PyNone = "".
Proof.
  split.
  - apply (proj1 (empty_message_short_circuit broken_classifier own_extractor
                    broken_generator "u1" (PyStr " ;; ") init)).
    vm_compute. reflexivity.
  - apply (proj2 (empty_message_short_circuit broken_classifier own_extractor
                    broken_generator "u1" PyNone init)).
    left. reflexivity.
Defined.

Lemma last_intent_set_before_generation_witness :
  active_sessions
    (snd (process_message_with IntentClassifier.classify_intent own_extractor
            broken_generator "u1" (PyStr "I need a loan") returning))
    !! "u1"
  = Some (set_last_intent (current_session "u1" returning) LOAN_INFO)
  /\ fst (process_message_with IntentClassifier.classify_intent own_extractor
            broken_generator "u1" (PyStr "I need a loan") returning)
     = Return apology.
Proof.
  destruct (last_intent_set_before_generation
              IntentClassifier.classify_intent own_extractor broken_generator
              "u1" (PyStr "I need a loan") returning LOAN_INFO
              [info "Intent classified: loan_info"])
    as [Hreg [_ Hfault]].
  - vm_compute. discriminate.
  - vm_compute. reflexivity.
  - split; [exact Hreg|].
    eapply Hfault; reflexivity.
Defined.

End OrchestratorWitnesses.

(** ** The chatbot with its own collaborators *)

Section ChatbotProperties.
Import SecurityValidator FintechChatbot.

(** With the classifier, extractor and generator of the module no call
    takes the error path: the reply is the invalid-message text or what
    the generator returns for the classified intent. *)
Lemma process_message_returns (draw : nat) (uid : string) (message : pyobj)
    (w : world) :
  let s := sanitize_input message in
  let intent := IntentClassifier.classify s in
  exists reply,
    fst (process_message draw uid message w) = Return reply
    /\ (s = "" -> reply = invalid_message)
    /\ (s <> "" ->
        @ResponseGenerator.generate_response
          (ResponseGenerator.own_handlers draw) intent
          (set_last_intent (current_session uid w) intent)
          (Some (_extract_entities s))
        = Return reply).
Proof.
  intros s intent. unfold process_message. rewrite serve_reply. fold s.
  destruct (generate_response_returns draw intent
              (set_last_intent (current_session uid w) intent)
              (Some (_extract_entities s))) as [r Hr].
  destruct (bool_decide (s = "")) eqn:Hs.
  - apply bool_decide_eq_true_1 in Hs. exists invalid_message.
    split; [reflexivity | split; [reflexivity | contradiction]].
  - apply bool_decide_eq_false_1 in Hs. exists r.
    unfold reply_on, IntentClassifier.classify_intent, quiet. cbn [snd].
    fold intent. rewrite Hr.
    split; [reflexivity | split; [contradiction | reflexivity]].
Qed.

(** The end-to-end scenario of the specification. *)
Example greeting_then_goodbye :
  let '(r1, w1) := process_message 0 "u1" (PyStr "Hello") init in
  let '(r2, w2) := process_message 2 "u1" (PyStr "goodbye") w1 in
  r1 = Return "Hello! Welcome to SecureBank. How can I assist you today?"
  /\ r2 = Return "Take care! Remember, I'm here 24/7 for your banking needs."
  /\ (last_intent <$> active_sessions w2 !! "u1") = Some (Some GOODBYE).
Proof. vm_compute. repeat split; reflexivity. Qed.

End ChatbotProperties.

(** * Further properties *)

(** ** More about the text primitives *)

Section MoreTextFacts.

Lemma chars_app (a b : string) : chars (a +:+ b) = chars a ++ chars b.
Proof.
  unfold chars. induction a as [|c a IH]; simpl; [reflexivity|].
  now rewrite IH.
Qed.

Lemma str_nil_iff (l : list ascii) : str l = "" <-> l = [].
Proof.
  split; [|now intros ->].
  intros H. apply (f_equal chars) in H. now rewrite chars_str in H.
Qed.

Lemma lstrip_head (l m : list ascii) (c : ascii) :
  lstrip l = c :: m -> isspace c = false.
Proof.
  induction l as [|x l IH]; simpl; [discriminate|].
  destruct (isspace x) eqn:Hx; [exact IH|].
  intros H. injection H as <- _. exact Hx.
Qed.

Lemma lstrip_nil_iff (l : list ascii) :
  lstrip l = [] <-> forallb isspace l = true.
Proof.
  induction l as [|x l IH]; simpl; [tauto|].
  destruct (isspace x); simpl; [exact IH|].
  split; discriminate.
Qed.

Lemma lstrip_idem (l : list ascii) : lstrip (lstrip l) = lstrip l.
Proof.
  induction l as [|x l IH]; simpl; [reflexivity|].
  destruct (isspace x) eqn:Hx; [exact IH|]. simpl. now rewrite Hx.
Qed.

Lemma lstrip_keep (c : ascii) (l : list ascii) :
  isspace c = false -> lstrip (c :: l) = c :: l.
Proof. intros Hc. simpl. now rewrite Hc. Qed.

Lemma lstrip_snoc (l : list ascii) (c : ascii) :
  isspace c = false -> lstrip (l ++ [c]) = lstrip l ++ [c].
Proof.
  intros Hc. induction l as [|x l IH]; simpl; [now rewrite Hc|].
  destruct (isspace x); [exact IH | reflexivity].
Qed.

Lemma strip_nil_iff (l : list ascii) :
  strip l = [] <-> forallb isspace l = true.
Proof.
  unfold strip, rstrip. rewrite <- lstrip_nil_iff. split.
  - intros H. apply (f_equal (@rev ascii)) in H.
    rewrite rev_involutive in H. simpl in H.
    destruct (lstrip l) as [|c m] eqn:Hl; [reflexivity|].
    simpl in H. rewrite (lstrip_snoc _ c (lstrip_head _ _ _ Hl)) in H.
    destruct (lstrip (rev m)); discriminate.
  - intros ->. reflexivity.
Qed.

(** The shape of a stripped text that is not empty. *)
Lemma strip_cons (l m : list ascii) (c : ascii) :
  lstrip l = c :: m -> strip l = c :: rev (lstrip (rev m)).
Proof.
  intros Hl. unfold strip, rstrip. rewrite Hl. simpl.
  rewrite (lstrip_snoc _ c (lstrip_head _ _ _ Hl)), rev_app_distr.
  reflexivity.
Qed.

Lemma strip_idem (l : list ascii) : strip (strip l) = strip l.
Proof.
  destruct (lstrip l) as [|c m] eqn:Hl.
  - assert (strip l = []) as ->; [|reflexivity].
    apply strip_nil_iff, lstrip_nil_iff, Hl.
  - rewrite (strip_cons l m c Hl).
    rewrite (strip_cons _ (rev (lstrip (rev m))) c).
    + now rewrite rev_involutive, lstrip_idem.
    + apply lstrip_keep. exact (lstrip_head _ _ _ Hl).
Qed.

Lemma strip_head (l m : list ascii) (c : ascii) :
  strip l = c :: m -> isspace c = false.
Proof.
  destruct (lstrip l) as [|c' m'] eqn:Hl.
  - assert (strip l = []) as ->; [|discriminate].
    apply strip_nil_iff, lstrip_nil_iff, Hl.
  - rewrite (strip_cons l m' c' Hl). intros H. injection H as <- _.
    exact (lstrip_head _ _ _ Hl).
Qed.

Lemma strip_last (l m : list ascii) (c : ascii) :
  strip l = m ++ [c] -> isspace c = false.
Proof.
  unfold strip, rstrip. intros H.
  apply (f_equal (@rev ascii)) in H.
  rewrite rev_involutive, rev_app_distr in H. simpl in H.
  exact (lstrip_head _ _ _ H).
Qed.

Lemma forallb_strip (p : ascii -> bool) (l : list ascii) :
  forallb p l = true -> forallb p (strip l) = true.
Proof.
  rewrite !forallb_forall. intros H c Hc. apply H. now apply strip_In.
Qed.

Lemma forallb_filter_neg (p : ascii -> bool) (l : list ascii) :
  forallb (fun c => negb (p c)) (List.filter (fun c => negb (p c)) l) = true.
Proof.
  apply forallb_forall. intros c Hc. now apply filter_In in Hc.
Qed.

Lemma contains_trans (a b c : list ascii) :
  contains a b = true -> contains b c = true -> contains a c = true.
Proof.
  rewrite !contains_spec. intros [x [y ->]] [u [v ->]].
  exists (u ++ x), (y ++ v). now rewrite <- !app_assoc.
Qed.

Lemma lower_app (a b : list ascii) : lower (a ++ b) = lower a ++ lower b.
Proof. apply map_app. Qed.

End MoreTextFacts.

(** ** More about [SecurityValidator] *)

Section MoreSecurityValidator.
Import SecurityValidator.

Lemma sanitize_chars (t : string) :
  chars (sanitize_input (PyStr t))
  = strip (List.filter (fun c => negb (harmful c)) (chars t)).
Proof.
  unfold sanitize_input, harmful_pattern. now rewrite chars_str, sub_class.
Qed.

(** X1. Sanitizing is idempotent: a sanitized text is left as it is by a
    second pass, and so is the empty result for a value that is not a
    string. *)
Theorem sanitize_input_idempotent (x : pyobj) :
  sanitize_input (PyStr (sanitize_input x)) = sanitize_input x.
Proof.
  destruct x as [t| | | |]; try reflexivity.
  rewrite <- (str_chars (sanitize_input (PyStr (sanitize_input (PyStr t))))).
  rewrite <- (str_chars (sanitize_input (PyStr t))) at 2.
  f_equal. rewrite (sanitize_chars (sanitize_input (PyStr t))).
  rewrite (sanitize_chars t).
  rewrite filter_all.
  - apply strip_idem.
  - apply forallb_strip, forallb_filter_neg.
Qed.

(** X2. A sanitized text neither starts nor ends with a whitespace
    character. *)
Theorem sanitize_input_trimmed (x : pyobj) (c : ascii) (m : list ascii) :
  chars (sanitize_input x) = c :: m \/ chars (sanitize_input x) = m ++ [c] ->
  isspace c = false.
Proof.
  destruct x as [t| | | |];
    try (intros [H|H]; [discriminate | destruct m; discriminate]).
  rewrite sanitize_chars. intros [H|H].
  - exact (strip_head _ _ _ H).
  - exact (strip_last _ _ _ H).
Qed.

Lemma sanitize_input_trimmed_witness :
  isspace "h" = false /\ isspace "!" = false.
Proof.
  split.
  - apply (sanitize_input_trimmed (PyStr "  <hi there!> ") "h"
             (list_ascii_of_string "i there!")).
    left. vm_compute. reflexivity.
  - apply (sanitize_input_trimmed (PyStr "  <hi there!> ") "!"
             (list_ascii_of_string "hi there")).
    right. vm_compute. reflexivity.
Defined.

(** X3. The sanitized form of a string is empty exactly when every
    character of the string is blacklisted or whitespace. *)
Theorem sanitize_input_empty_iff (t : string) :
  sanitize_input (PyStr t) = "" <-> forallb droppable (chars t) = true.
Proof.
  rewrite <- (str_chars (sanitize_input (PyStr t))), str_nil_iff.
  rewrite sanitize_chars, strip_nil_iff.
  unfold droppable. induction (chars t) as [|c l IH]; simpl; [tauto|].
  destruct (harmful c); simpl; [exact IH|].
  rewrite !andb_true_iff, IH. tauto.
Qed.

(** X4. The account-number check accepts exactly the texts made of 10 to
    12 digits, alone or followed by one line feed at the very end. *)
Theorem validate_account_number_exact (account_number : string) :
  validate_account_number account_number = true
  <-> exists ds,
      forallb is_digit ds = true /\ 10 <= length ds <= 12
      /\ (chars account_number = ds \/ chars account_number = ds ++ [newline]).
Proof. apply validate_account_number_accepts. Qed.




Lemma cleaned_app (a b : string) :
  cleaned (a +:+ b) = cleaned a ++ cleaned b.
Proof. unfold cleaned. now rewrite chars_app, !List.filter_app. Qed.

(** X6. Dollar signs and commas are ignored wherever they stand in the
    amount, not only in front or between groups of three digits. *)
Theorem validate_amount_ignores_marks (a b : string) :
  validate_amount (PyStr (a +:+ "$" +:+ b)) = validate_amount (PyStr (a +:+ b))
  /\ validate_amount (PyStr (a +:+ "," +:+ b))
     = validate_amount (PyStr (a +:+ b)).
Proof.
  rewrite !validate_amount_unfold, !cleaned_app. split; reflexivity.
Qed.

End MoreSecurityValidator.

(** ** More about [IntentClassifier] *)

Section MoreIntentClassifier.
Import IntentClassifier.

Ltac split_keywords :=
  repeat match goal with
         | |- context [any_keyword ?t ?k] =>
             destruct (any_keyword t k) eqn:?
         end.

Lemma any_keyword_In (text : list ascii) (keywords : list string)
    (keyword : string) :
  In keyword keywords -> contains (chars keyword) text = true ->
  any_keyword text keywords = true.
Proof.
  intros Hin Hk. unfold any_keyword. apply existsb_exists. eauto.
Qed.

(** X7. A keyword never loses to a later intent: when a keyword of an
    intent occurs in the lower-cased text, the result is that intent or
    one declared before it, and never [UNKNOWN]. *)
Theorem classify_precedence (user_input : string) (intent : IntentType)
    (keywords : list string) (keyword : string) :
  In (intent, keywords) intent_keywords ->
  In keyword keywords ->
  contains (chars keyword) (lower (chars user_input)) = true ->
  rank (classify user_input) <= rank intent
  /\ classify user_input <> UNKNOWN.
Proof.
  intros Hi Hk Hocc.
  pose proof (any_keyword_In _ _ _ Hk Hocc) as Hany. clear Hk Hocc.
  unfold classify. set (text := lower (chars user_input)) in *.
  unfold intent_keywords in Hi. simpl in Hi.
  repeat (destruct Hi as [Hi|Hi];
          [injection Hi as <- <-; cbn [first_match intent_keywords];
           split_keywords; try discriminate;
           (split; [vm_compute; lia | cbn; congruence]) |]).
  contradiction.
Qed.

Lemma classify_precedence_witness :
  rank (classify "Any funds for a LOAN?") <= rank LOAN_INFO
  /\ classify "Any funds for a LOAN?" <> UNKNOWN.
Proof.
  apply (classify_precedence "Any funds for a LOAN?" LOAN_INFO
           ["loan"; "mortgage"; "credit"; "borrow"] "loan").
  - simpl. tauto.
  - simpl. tauto.
  - vm_compute. reflexivity.
Defined.

(** X8. Keywords hidden by an earlier one.  The greeting keyword [hi]
    lies inside [history], so every message with [history] in it is a
    greeting; [funds] lies inside [mutual funds], so that keyword never
    leads to investment advice.  Hence a transaction-history result needs
    one of [transactions], [statement], [activity], and an
    investment-advice result one of [invest], [portfolio], [stocks],
    [bonds]. *)
Theorem classify_hidden_keywords (user_input : string) :
  let text := lower (chars user_input) in
  (contains (chars "history") text = true -> classify user_input = GREETING)
  /\ (contains (chars "mutual funds") text = true ->
      classify user_input = GREETING \/ classify user_input = ACCOUNT_BALANCE)
  /\ (classify user_input = TRANSACTION_HISTORY ->
      any_keyword text ["transactions"; "statement"; "activity"] = true)
  /\ (classify user_input = INVESTMENT_ADVICE ->
      any_keyword text ["invest"; "portfolio"; "stocks"; "bonds"] = true).
Proof.
  intros text.
  assert (contains (chars "history") text = true ->
          contains (chars "hi") text = true) as Hhi.
  { intros H. eapply contains_trans; [|exact H]. reflexivity. }
  assert (contains (chars "mutual funds") text = true ->
          contains (chars "funds") text = true) as Hfunds.
  { intros H. eapply contains_trans; [|exact H]. reflexivity. }
  unfold classify. fold text. cbn [first_match intent_keywords].
  unfold any_keyword. cbn [existsb].
  split; [|split; [|split]].
  - intros H. rewrite (Hhi H).
    rewrite !orb_true_r. reflexivity.
  - intros H. rewrite (Hfunds H).
    destruct (contains (chars "hello") text || _); [now left|].
    rewrite !orb_true_r. now right.
  - intros H.
    destruct (contains (chars "history") text) eqn:Hh.
    + rewrite (Hhi eq_refl), !orb_true_r in H. discriminate.
    + rewrite !orb_false_r in *.
      repeat match type of H with
             | context [if ?b then _ else _] =>
                 destruct b eqn:?; try discriminate
             end.
      cbn [orb] in *. first [assumption | reflexivity].
  - intros H.
    destruct (contains (chars "mutual funds") text) eqn:Hm.
    + rewrite (Hfunds eq_refl), !orb_true_r in H.
      destruct (contains (chars "hello") text || _); discriminate.
    + rewrite !orb_false_r in *.
      repeat match type of H with
             | context [if ?b then _ else _] =>
                 destruct b eqn:?; try discriminate
             end.
      cbn [orb] in *. first [assumption | reflexivity].
Qed.

Lemma classify_hidden_keywords_witness :
  classify "Show my transaction HISTORY" = GREETING
  /\ any_keyword (lower (chars "my statement please"))
       ["transactions"; "statement"; "activity"] = true.
Proof.
  split.
  - apply (proj1 (classify_hidden_keywords "Show my transaction HISTORY")).
    vm_compute. reflexivity.
  - apply (proj1 (proj2 (proj2 (classify_hidden_keywords "my statement please")))).
    vm_compute. reflexivity.
Defined.

End MoreIntentClassifier.

(** ** More about [ResponseGenerator] *)

Section MoreResponseGenerator.
Import ResponseGenerator.

Abbreviation own_response draw :=
  (@generate_response (own_handlers draw)).

Lemma choice_three (draw : nat) (a b c : string) :
  choice draw [a; b; c] = Return a
  \/ choice draw [a; b; c] = Return b
  \/ choice draw [a; b; c] = Return c.
Proof.
  unfold choice. cbn [length].
  pose proof (Nat.mod_upper_bound draw 3) as Hlt.
  destruct (draw mod 3) as [|[|[|n]]]; cbn; auto. lia.
Qed.

(** The dispatch with the handlers of the class, past the check. *)
Lemma own_response_unfold (draw : nat) (intent : IntentType)
    (session : UserSession) (extracted_data : option entities) :
  own_response draw intent session extracted_data
  = if bool_decide (intent ∈ auth_required) && negb (authenticated session)
    then Return _request_authentication
    else match intent with
         | GREETING | GOODBYE =>
             choice draw (default [] (responses intent))
         | ACCOUNT_BALANCE => Return (handle_balance_inquiry session)
         | TRANSACTION_HISTORY => Return (handle_transaction_history session)
         | TRANSFER_MONEY =>
             Return (handle_transfer_request (default ∅ extracted_data))
         | LOAN_INFO => Return handle_loan_inquiry
         | INVESTMENT_ADVICE => Return handle_investment_inquiry
         | SUPPORT => Return handle_support_request
         | UNKNOWN => Return handle_unknown_intent
         end.
Proof.
  unfold generate_response. destruct (_ && _); [reflexivity|].
  destruct intent; reflexivity.
Qed.

Lemma not_behind_check (intent : IntentType) :
  intent ∈ auth_required ->
  intent = ACCOUNT_BALANCE \/ intent = TRANSACTION_HISTORY
  \/ intent = TRANSFER_MONEY.
Proof.
  intros H. apply list_elem_of_In in H. simpl in H.
  destruct H as [H|[H|[H|[]]]]; auto.
Qed.

(** X9. With the handlers of the class the generator never raises: the
    canned lists are looked up for greeting and goodbye only and are not
    empty.  For these two intents the reply is one of the canned texts of
    the intent. *)
Theorem generate_response_canned (draw : nat) (intent : IntentType)
    (session : UserSession) (extracted_data : option entities) :
  exists reply,
    own_response draw intent session extracted_data = Return reply
    /\ forall seq, responses intent = Some seq -> In reply seq.
Proof.
  rewrite own_response_unfold.
  destruct (_ && _) eqn:Hgate.
  - exists _request_authentication. split; [reflexivity|].
    intros seq Hseq. apply andb_true_iff in Hgate as [Hg _].
    apply bool_decide_eq_true_1, not_behind_check in Hg.
    destruct Hg as [->|[->| ->]]; discriminate Hseq.
  - destruct intent;
      try (eexists; split; [reflexivity | intros seq Hseq; discriminate Hseq]);
      cbn -[choice];
      match goal with |- context [choice draw [?a; ?b; ?c]] =>
        destruct (choice_three draw a b c) as [Hc|[Hc|Hc]]; rewrite Hc
      end; eexists; (split; [reflexivity|]);
        intros seq Hseq; injection Hseq as <-; simpl; tauto.
Qed.

Lemma generate_response_canned_witness :
  exists reply,
    own_response 7 GOODBYE (new_session "u1") None = Return reply
    /\ In reply
         [ "Thank you for using SecureBank! Have a great day!";
           "Goodbye! Feel free to reach out anytime you need assistance.";
           "Take care! Remember, I'm here 24/7 for your banking needs." ].
Proof.
  destruct (generate_response_canned 7 GOODBYE (new_session "u1") None)
    as [reply [Hr Hin]].
  exists reply. split; [exact Hr|]. apply Hin. reflexivity.
Defined.

(** X10. Every canned text can come out: for each text of the list of an
    intent some draw of the random generator selects it. *)
Theorem generate_response_reaches_canned (intent : IntentType)
    (seq : list string) (text : string) (session : UserSession)
    (extracted_data : option entities) :
  responses intent = Some seq -> In text seq ->
  exists draw, own_response draw intent session extracted_data = Return text.
Proof.
  intros Hseq Hin.
  destruct intent; try discriminate Hseq; injection Hseq as <-;
    simpl in Hin;
    destruct Hin as [<-|[<-|[<-|[]]]];
    first [ now exists 0 | now exists 1 | now exists 2 ].
Qed.

Lemma generate_response_reaches_canned_witness :
  exists draw,
    own_response draw GREETING (new_session "u1") None
    = Return "Good day! How may I help you with your financial services today?".
Proof.
  apply (generate_response_reaches_canned GREETING
           [ "Hello! Welcome to SecureBank. How can I assist you today?";
             "Hi there! I'm here to help with your banking needs. What can I do for you?";
             "Good day! How may I help you with your financial services today?" ]).
  - reflexivity.
  - simpl. tauto.
Defined.

(** X11. The reply depends on the intent, on the [authenticated] flag of
    the session and on the draw only: the entities and the rest of the
    session are ignored. *)
Theorem generate_response_ignores_data (draw : nat) (intent : IntentType)
    (session1 session2 : UserSession) (data1 data2 : option entities) :
  authenticated session1 = authenticated session2 ->
  own_response draw intent session1 data1
  = own_response draw intent session2 data2.
Proof.
  intros Hauth. unfold generate_response. rewrite Hauth.
  destruct (_ && _); [reflexivity|].
  destruct intent; reflexivity.
Qed.

Lemma generate_response_ignores_data_witness :
  own_response 0 TRANSFER_MONEY
    {| user_id := "a"; authenticated := true; context := ∅;
       last_intent := Some GREETING |}
    (Some (<["amount" := PyStr "500"]> ∅))
  = own_response 0 TRANSFER_MONEY
      {| user_id := "b"; authenticated := true;
         context := <["k" := PyNone]> ∅; last_intent := None |}
      None.
Proof. apply generate_response_ignores_data. reflexivity. Defined.

(** X12. The verification request is the reply exactly when the intent is
    one of the three behind the check and the session is not
    authenticated: no handler produces that text. *)
Theorem generate_response_auth_request_iff (draw : nat) (intent : IntentType)
    (session : UserSession) (extracted_data : option entities) :
  own_response draw intent session extracted_data
  = Return _request_authentication
  <-> In intent auth_required /\ authenticated session = false.
Proof.
  rewrite own_response_unfold. split.
  - destruct (bool_decide (intent ∈ auth_required)) eqn:Hg;
      destruct (authenticated session) eqn:Ha; cbn [andb negb].
    + intros H. exfalso.
      apply bool_decide_eq_true_1, not_behind_check in Hg.
      destruct Hg as [->|[->| ->]]; vm_compute in H; discriminate H.
    + intros _. apply bool_decide_eq_true_1 in Hg.
      split; [now apply list_elem_of_In | reflexivity].
    + intros H. exfalso.
      destruct intent; cbn -[choice] in H;
        try (vm_compute in H; discriminate H);
        match type of H with context [choice draw [?a; ?b; ?c]] =>
          destruct (choice_three draw a b c) as [Hc|[Hc|Hc]];
          rewrite Hc in H; vm_compute in H; discriminate H
        end.
    + intros H. exfalso.
      destruct intent; cbn -[choice] in H;
        try (vm_compute in H; discriminate H);
        match type of H with context [choice draw [?a; ?b; ?c]] =>
          destruct (choice_three draw a b c) as [Hc|[Hc|Hc]];
          rewrite Hc in H; vm_compute in H; discriminate H
        end.
  - intros [Hin Ha]. rewrite Ha.
    rewrite bool_decide_eq_true_2; [reflexivity | now apply list_elem_of_In].
Qed.

End MoreResponseGenerator.

(** ** The session registry *)

Section SessionRegistry.
Import FintechChatbot.

(** X13. [get_session] gets or creates: the session it returns is the one
    registered afterwards, a registered session is returned with the
    state untouched, a second call changes nothing, and no other user is
    affected. *)
Theorem get_session_get_or_create (uid : string) (w : world) :
  exists session,
    get_session uid w = (Return session, entered uid w)
    /\ active_sessions (entered uid w) !! uid = Some session
    /\ get_session uid (entered uid w) = (Return session, entered uid w)
    /\ (forall registered,
          active_sessions w !! uid = Some registered ->
          session = registered /\ entered uid w = w)
    /\ (active_sessions w !! uid = None -> session = new_session uid)
    /\ (forall other,
          other <> uid ->
          active_sessions (entered uid w) !! other = active_sessions w !! other).
Proof.
  exists (current_session uid w).
  unfold entered, current_session, get_session, create_session.
  destruct (active_sessions w !! uid) as [registered|] eqn:Hs; cbn.
  - rewrite Hs.
    split; [reflexivity|]. split; [reflexivity|]. split; [reflexivity|].
    split; [intros r Hr; now injection Hr as <-|].
    split; [discriminate | reflexivity].
  - rewrite lookup_insert_eq.
    split; [reflexivity|]. split; [reflexivity|]. split; [reflexivity|].
    split; [discriminate|]. split; [reflexivity|].
    intros other Hne. now rewrite lookup_insert_ne.
Qed.

Lemma get_session_get_or_create_witness :
  exists session,
    get_session "u1" returning = (Return session, returning)
    /\ last_intent session = Some GREETING.
Proof.
  destruct (get_session_get_or_create "u1" returning)
    as [session [Hget [_ [_ [Hreg _]]]]].
  destruct (Hreg (set_last_intent (new_session "u1") GREETING))
    as [-> Hsame]; [reflexivity|].
  rewrite Hsame in Hget. eexists. split; [exact Hget | reflexivity].
Defined.

(** X14. [create_session] starts over: whatever was registered for the
    user is replaced by a session with the defaults (not authenticated,
    no last intent, empty context); the other users keep their
    sessions. *)
Theorem create_session_resets (uid : string) (w : world) :
  let w' := snd (create_session uid w) in
  fst (create_session uid w) = Return (new_session uid)
  /\ active_sessions w' !! uid = Some (new_session uid)
  /\ (forall other,
        other <> uid -> active_sessions w' !! other = active_sessions w !! other)
  /\ log w' = log w ++ [info ("New session created for user: " +:+ uid)].
Proof.
  cbn. rewrite lookup_insert_eq. repeat split.
  intros other Hne. now rewrite lookup_insert_ne.
Qed.

Lemma create_session_resets_witness :
  active_sessions (snd (create_session "u1" returning)) !! "u2"
  = active_sessions returning !! "u2".
Proof.
  apply (proj1 (proj2 (proj2 (create_session_resets "u1" returning)))).
  discriminate.
Defined.

(** X15. [end_session] removes the session of the user and only that one;
    for a user without a session it returns with the state untouched
    (nothing logged), so that ending twice is ending once. *)
Theorem end_session_idempotent (uid : string) (w : world) :
  let w' := snd (end_session uid w) in
  fst (end_session uid w) = Return tt
  /\ active_sessions w' !! uid = None
  /\ (forall other,
        other <> uid -> active_sessions w' !! other = active_sessions w !! other)
  /\ (active_sessions w !! uid = None -> w' = w)
  /\ end_session uid w' = (Return tt, w').
Proof.
  unfold end_session.
  destruct (active_sessions w !! uid) as [session|] eqn:Hs; cbn.
  - rewrite lookup_delete_eq.
    split; [reflexivity|]. split; [reflexivity|].
    split; [intros other Hne; now rewrite lookup_delete_ne|].
    split; [discriminate | reflexivity].
  - rewrite Hs.
    split; [reflexivity|]. split; [reflexivity|].
    split; [reflexivity|]. split; reflexivity.
Qed.

Lemma end_session_idempotent_witness :
  active_sessions (snd (end_session "u1" returning)) !! "u2"
  = active_sessions returning !! "u2"
  /\ snd (end_session "u2" returning) = returning.
Proof.
  destruct (end_session_idempotent "u1" returning) as [_ [_ [Hother _]]].
  destruct (end_session_idempotent "u2" returning) as [_ [_ [_ [Hnone _]]]].
  split.
  - apply Hother. discriminate.
  - apply Hnone. vm_compute. reflexivity.
Defined.

(** X16. Creating and then ending the session of a user who had none
    leaves the registry as it was; and the session obtained after an
    [end_session] is a new one: the last intent and the authentication of
    the ended session are forgotten. *)
Theorem session_round_trip (uid : string) (w : world) :
  (active_sessions w !! uid = None ->
   active_sessions (snd (end_session uid (snd (create_session uid w))))
   = active_sessions w)
  /\ fst (get_session uid (snd (end_session uid w)))
     = Return (new_session uid).
Proof.
  split.
  - intros Hnone. unfold end_session, create_session. cbn.
    rewrite lookup_insert_eq. cbn. rewrite delete_insert_eq.
    now apply delete_id.
  - unfold get_session, end_session.
    destruct (active_sessions w !! uid) as [session|] eqn:Hs; cbn.
    + now rewrite lookup_delete_eq.
    + now rewrite Hs.
Qed.

Lemma session_round_trip_witness :
  active_sessions (snd (end_session "u2" (snd (create_session "u2" returning))))
  = active_sessions returning.
Proof.
  apply (proj1 (session_round_trip "u2" returning)). vm_compute. reflexivity.
Defined.

End SessionRegistry.

(** ** More about the orchestrator *)

Section MoreOrchestrator.
Import SecurityValidator FintechChatbot.

Variable classify_intent : string -> logged IntentType.
Variable extract_entities : string -> logged entities.
Variable generate_response :
  IntentType -> UserSession -> option entities -> logged string.

Abbreviation serve' := (process_message_with classify_intent extract_entities
                                             generate_response).

Ltac run_pipeline :=
  unfold process_message_with, try_catch, pipeline, on_error, emit, call,
    assign_last_intent, mbind, M_bind, mret, M_ret.

Lemma entered_registry (uid : string) (w : world) :
  active_sessions (entered uid w)
  = <[uid := current_session uid w]> (active_sessions w).
Proof.
  unfold entered, current_session, get_session, create_session.
  destruct (active_sessions w !! uid) as [session|] eqn:Hs; cbn;
    [symmetry; now apply insert_id | reflexivity].
Qed.

(** The session left in the registry for the caller. *)
Lemma serve_registry (uid : string) (message : pyobj) (w : world) :
  let s := sanitize_input message in
  let session := current_session uid w in
  active_sessions (snd (serve' uid message w))
  = <[uid := if bool_decide (s = "") then session
             else match snd (classify_intent s) with
                  | Return intent => set_last_intent session intent
                  | Raise _ => session
                  end]> (active_sessions w).
Proof.
  intros s session. run_pipeline.
  rewrite (get_session_eq uid w). fold s session.
  destruct (bool_decide (s = "")); [apply entered_registry|].
  destruct (classify_intent s) as [l1 [intent|e1]]; cbn;
    [|apply entered_registry].
  assert (<[uid := set_last_intent session intent]>
            (active_sessions (entered uid w))
          = <[uid := set_last_intent session intent]> (active_sessions w))
    as Hreg.
  { rewrite entered_registry. apply insert_insert_eq. }
  destruct (extract_entities s) as [l2 [d|e2]]; cbn; [|exact Hreg].
  destruct (generate_response intent (set_last_intent session intent) (Some d))
    as [l3 [reply|e3]]; cbn; exact Hreg.
Qed.

(** What a call appends to the log. *)
Lemma serve_log (uid : string) (message : pyobj) (w : world) :
  let s := sanitize_input message in
  let session := current_session uid w in
  let failed e := [error ("Error processing message: " +:+ exn_msg e)] in
  log (snd (serve' uid message w))
  = log (entered uid w)
    ++ if bool_decide (s = "") then []
       else fst (classify_intent s)
            ++ match snd (classify_intent s) with
               | Raise e => failed e
               | Return intent =>
                   fst (extract_entities s)
                   ++ match snd (extract_entities s) with
                      | Raise e => failed e
                      | Return d =>
                          let g := generate_response intent
                                     (set_last_intent session intent)
                                     (Some d) in
                          fst g
                          ++ match snd g with
                             | Raise e => failed e
                             | Return _ =>
                                 [info ("Processed message for user " +:+ uid
                                        +:+ ": " +:+ value intent)]
                             end
                      end
               end.
Proof.
  intros s session failed. run_pipeline.
  rewrite (get_session_eq uid w). fold s session.
  destruct (bool_decide (s = "")); [cbn; now rewrite app_nil_r|].
  destruct (classify_intent s) as [l1 [intent|e1]]; cbn;
    [|now rewrite <- app_assoc].
  destruct (extract_entities s) as [l2 [d|e2]]; cbn;
    [|now rewrite <- !app_assoc].
  destruct (generate_response intent (set_last_intent session intent) (Some d))
    as [l3 [reply|e3]]; cbn; now rewrite <- !app_assoc.
Qed.

(** X17. A call touches the session of its caller only: the sessions of
    all other users are afterwards what they were, whatever the
    collaborators do. *)
Theorem process_message_isolation (uid other : string) (message : pyobj)
    (w : world) :
  other <> uid ->
  active_sessions (snd (serve' uid message w)) !! other
  = active_sessions w !! other.
Proof.
  intros Hne. rewrite serve_registry. now apply lookup_insert_ne.
Qed.

(** X18. After a call the caller has a session in the registry, also when
    the message was invalid or a collaborator raised; it has the
    [user_id], the [authenticated] flag and the [context] of the session
    the call started with (the defaults for a new user): a call never
    authenticates anybody. *)
Theorem process_message_keeps_session (uid : string) (message : pyobj)
    (w : world) :
  exists session,
    active_sessions (snd (serve' uid message w)) !! uid = Some session
    /\ user_id session = user_id (current_session uid w)
    /\ authenticated session = authenticated (current_session uid w)
    /\ context session = context (current_session uid w)
    /\ (active_sessions w !! uid = None -> authenticated session = false).
Proof.
  rewrite serve_registry, lookup_insert_eq. eexists. split; [reflexivity|].
  assert (active_sessions w !! uid = None ->
          authenticated (current_session uid w) = false) as Hnew.
  { unfold current_session. now intros ->. }
  destruct (bool_decide _); [auto|].
  destruct (snd (classify_intent _)); cbn; auto.
Qed.

Lemma keyed_insert (uid : string) (session : UserSession) (w w' : world) :
  keyed w -> user_id session = uid ->
  active_sessions w' = <[uid := session]> (active_sessions w) ->
  keyed w'.
Proof.
  intros Hk Hid Hreg other s. rewrite Hreg.
  destruct (decide (uid = other)) as [->|Hne].
  - rewrite lookup_insert_eq. intros H. now injection H as <-.
  - rewrite lookup_insert_ne by exact Hne. apply Hk.
Qed.

Lemma current_session_keyed (uid : string) (w : world) :
  keyed w -> user_id (current_session uid w) = uid.
Proof.
  intros Hk. unfold current_session.
  destruct (active_sessions w !! uid) as [s|] eqn:Hs; [|reflexivity].
  exact (Hk uid s Hs).
Qed.

(** X19. Every session is registered under its own [user_id]: the three
    operations on the registry keep it so. *)
Theorem registry_keyed (uid : string) (message : pyobj) (w : world) :
  keyed w ->
  keyed (snd (serve' uid message w))
  /\ keyed (snd (create_session uid w))
  /\ keyed (snd (end_session uid w)).
Proof.
  intros Hk. split; [|split].
  - eapply keyed_insert; [exact Hk | | apply serve_registry].
    destruct (bool_decide _); [now apply current_session_keyed|].
    destruct (snd (classify_intent _)); cbn;
      now apply current_session_keyed.
  - eapply keyed_insert; [exact Hk | | reflexivity]. reflexivity.
  - unfold end_session.
    destruct (active_sessions w !! uid) eqn:Hs; [|exact Hk].
    intros other s. cbn. destruct (decide (uid = other)) as [->|Hne].
    + now rewrite lookup_delete_eq.
    + rewrite lookup_delete_ne by exact Hne. apply Hk.
Qed.

(** X20. When a collaborator raises, the text of the exception goes to the
    log as the last record, at level ERROR, and the reply is the apology:
    the text of the fault is never shown to the caller. *)
Theorem process_message_logs_fault (uid : string) (message : pyobj)
    (w : world) (e : exn) :
  sanitize_input message <> "" ->
  fault_of classify_intent extract_entities generate_response
    (sanitize_input message) (current_session uid w) = Some e ->
  fst (serve' uid message w) = Return apology
  /\ last (log (snd (serve' uid message w)))
     = Some (error ("Error processing message: " +:+ exn_msg e)).
Proof.
  intros Hne Hf. rewrite serve_reply, serve_log.
  rewrite bool_decide_eq_false_2 by exact Hne.
  unfold fault_of in Hf. unfold reply_on.
  destruct (snd (classify_intent _)) as [intent|e1].
  - destruct (snd (extract_entities _)) as [d|e2].
    + destruct (snd (generate_response _ _ _)) as [r|e3];
        [discriminate|]. injection Hf as ->.
      split; [reflexivity|]. now rewrite !app_assoc, last_snoc.
    + injection Hf as ->.
      split; [reflexivity|]. now rewrite !app_assoc, last_snoc.
  - injection Hf as ->.
    split; [reflexivity|]. now rewrite !app_assoc, last_snoc.
Qed.

End MoreOrchestrator.

Section MoreOrchestratorWitnesses.
Import SecurityValidator FintechChatbot.

Lemma process_message_isolation_witness :
  active_sessions
    (snd (process_message_with broken_classifier own_extractor broken_generator
            "u2" (PyStr "hello") returning)) !! "u1"
  = active_sessions returning !! "u1".
Proof.
  apply (process_message_isolation broken_classifier own_extractor
           broken_generator "u2" "u1" (PyStr "hello") returning).
  discriminate.
Defined.

Lemma process_message_keeps_session_witness :
  exists session,
    active_sessions
      (snd (process_message_with broken_classifier own_extractor
              broken_generator "u9" (PyStr "hello") init)) !! "u9"
    = Some session
    /\ authenticated session = false.
Proof.
  destruct (process_message_keeps_session broken_classifier own_extractor
              broken_generator "u9" (PyStr "hello") init)
    as [session [Hreg [_ [_ [_ Hnew]]]]].
  exists session. split; [exact Hreg|]. apply Hnew. reflexivity.
Defined.

Lemma keyed_returning : keyed returning.
Proof.
  intros uid s. unfold returning. cbn.
  destruct (decide ("u1" = uid)) as [<-|Hne].
  - rewrite lookup_insert_eq. intros H. now injection H as <-.
  - rewrite lookup_insert_ne by exact Hne. rewrite lookup_empty. discriminate.
Qed.

Lemma registry_keyed_witness :
  keyed (snd (process_message_with IntentClassifier.classify_intent
                own_extractor broken_generator "u2" (PyStr "hello") returning)).
Proof.
  apply (registry_keyed IntentClassifier.classify_intent own_extractor
           broken_generator "u2" (PyStr "hello") returning).
  exact keyed_returning.
Defined.

Lemma process_message_logs_fault_witness :
  fst (process_message_with IntentClassifier.classify_intent own_extractor
         broken_generator "u1" (PyStr "hello") init)
  = Return apology
  /\ last (log (snd (process_message_with IntentClassifier.classify_intent
                       own_extractor broken_generator "u1" (PyStr "hello") init)))
     = Some (error "Error processing message: generator down").
Proof.
  apply (process_message_logs_fault IntentClassifier.classify_intent
           own_extractor broken_generator "u1" (PyStr "hello") init
           (Exn (OtherException "RuntimeError") "generator down")).
  - vm_compute. discriminate.
  - vm_compute. reflexivity.
Defined.

End MoreOrchestratorWitnesses.

(** ** More about the chatbot with its own collaborators *)

Section MoreChatbot.
Import SecurityValidator IntentClassifier ResponseGenerator FintechChatbot.

(** X21. What a call of the chatbot logs: the creation of the session for
    a new user, and, unless the message is invalid, one record for the
    classification and one for the processed message, both with the name
    of the classified intent; never a record at level ERROR. *)
Theorem process_message_log (draw : nat) (uid : string) (message : pyobj)
    (w : world) :
  let s := sanitize_input message in
  let name := value (classify s) in
  log (snd (process_message draw uid message w))
  = log w
    ++ match active_sessions w !! uid with
       | Some _ => []
       | None => [info ("New session created for user: " +:+ uid)]
       end
    ++ if bool_decide (s = "") then []
       else [info ("Intent classified: " +:+ name);
             info ("Processed message for user " +:+ uid +:+ ": " +:+ name)].
Proof.
  intros s name. unfold process_message.
  rewrite serve_log, entered_log. fold s. rewrite <- app_assoc.
  do 2 f_equal. destruct (bool_decide (s = "")); [reflexivity|].
  unfold classify_intent, quiet. cbn [fst snd].
  destruct (generate_response_returns draw (classify s)
              (set_last_intent (current_session uid w) (classify s))
              (Some (_extract_entities s))) as [r Hr].
  rewrite Hr. reflexivity.
Qed.

Lemma serve_step (draw : nat) (uid : string) (message : pyobj) (w : world) :
  all_unauthenticated w ->
  all_unauthenticated (snd (process_message draw uid message w))
  /\ (sanitize_input message <> "" ->
      In (classify (sanitize_input message)) auth_required ->
      fst (process_message draw uid message w)
      = Return _request_authentication).
Proof.
  intros Hw.
  assert (authenticated (current_session uid w) = false) as Hcur.
  { unfold current_session.
    destruct (active_sessions w !! uid) as [s|] eqn:Hs; [|reflexivity].
    exact (Hw uid s Hs). }
  split.
  - intros other s. unfold process_message. rewrite serve_registry.
    destruct (decide (uid = other)) as [->|Hne].
    + rewrite lookup_insert_eq. intros H. injection H as <-.
      destruct (bool_decide (sanitize_input message = "")); [exact Hcur|].
      destruct (snd (classify_intent (sanitize_input message))); exact Hcur.
    + rewrite lookup_insert_ne by exact Hne. apply Hw.
  - intros Hne Hin. unfold process_message. rewrite serve_reply.
    rewrite bool_decide_eq_false_2 by exact Hne.
    unfold reply_on, classify_intent, quiet. cbn [snd].
    rewrite own_response_unfold. cbn [authenticated set_last_intent].
    rewrite Hcur, bool_decide_eq_true_2 by now apply list_elem_of_In.
    reflexivity.
Qed.

(** X22. Without authentication no account data comes out.  On a chatbot
    where no session is authenticated, in any sequence of calls by any
    users every message classified as account balance, transaction
    history or money transfer is answered by the verification request,
    and no session is authenticated afterwards. *)
Theorem no_account_data_without_authentication (requests : list request)
    (w : world) :
  all_unauthenticated w ->
  Forall2 (fun r reply =>
             asks_for_account r -> reply = Return _request_authentication)
          requests (fst (serve_all requests w))
  /\ all_unauthenticated (snd (serve_all requests w)).
Proof.
  revert w. induction requests as [|r requests IH]; intros w Hw.
  - split; [constructor | exact Hw].
  - cbn [serve_all].
    destruct (serve_step (draw_of r) (who r) (what r) w Hw) as [Hw1 Hreply].
    destruct (process_message (draw_of r) (who r) (what r) w) as [reply w1].
    cbn [fst snd] in *.
    destruct (IH w1 Hw1) as [Hall Hw2].
    destruct (serve_all requests w1) as [replies w2]. cbn [fst snd] in *.
    split; [|exact Hw2].
    constructor; [|exact Hall].
    intros [Hne Hin]. now apply Hreply.
Qed.

Lemma all_unauthenticated_init : all_unauthenticated init.
Proof. intros uid s. unfold init. cbn. rewrite lookup_empty. discriminate. Qed.

Lemma no_account_data_without_authentication_witness :
  Forall2 (fun r reply =>
             asks_for_account r -> reply = Return _request_authentication)
          [ {| who := "u1"; what := PyStr "Hello"; draw_of := 0 |};
            {| who := "u1"; what := PyStr "What is my balance?"; draw_of := 1 |} ]
          (fst (serve_all
                  [ {| who := "u1"; what := PyStr "Hello"; draw_of := 0 |};
                    {| who := "u1"; what := PyStr "What is my balance?";
                       draw_of := 1 |} ]
                  init)).
Proof.
  apply (no_account_data_without_authentication _ init).
  exact all_unauthenticated_init.
Defined.

End MoreChatbot.

(** ** More about entity extraction *)

Section MoreExtraction.
Import SecurityValidator FintechChatbot.

Abbreviation digit := (Class is_digit).

(** A repetition that needs a digit fails on a text without one. *)
Lemma digit_needed (n : nat) (k : kont) (st : mstate) :
  existsb is_digit (rest st) = false ->
  rep_exact (run digit) (S n) k st = None.
Proof.
  destruct st as [sn rs g]. cbn [rest rep_exact]. intros Hd.
  rewrite run_class. destruct rs as [|c rs]; [reflexivity|].
  simpl in Hd. apply orb_false_iff in Hd as [-> _]. reflexivity.
Qed.

Lemma amount_needs_digit (sn rs : list ascii) :
  existsb is_digit rs = false -> match_at amount_pattern sn rs = None.
Proof.
  intros Hd. unfold match_at.
  assert (run amount_pattern Some (MState sn rs None) = None) as ->;
    [|reflexivity].
  unfold amount_pattern, Opt.
  set (body := Grp _).
  assert (forall st, existsb is_digit (rest st) = false ->
                     run body Some st = None) as Hbody.
  { intros st Hst. unfold body. cbn [run]. now apply digit_needed. }
  change (run (Cat (Rep 0 1 (Lit "$")) body) Some ?st)
    with (rep_upto (run (Lit "$")) 1 (run body Some) st).
  rewrite rep_upto_S.
  rewrite (Hbody (MState sn rs None) Hd).
  change (run (Lit "$") ?k (MState sn rs None))
    with (eat (Ascii.eqb "$") k (MState sn rs None)).
  unfold eat. cbn [rest seen group1].
  destruct rs as [|c rs]; [reflexivity|].
  destruct (Ascii.eqb "$" c); [|reflexivity].
  simpl in Hd. apply orb_false_iff in Hd as [_ Hd].
  change (rep_upto (run (Lit "$")) 0 ?k ?st) with (k st).
  now rewrite Hbody.
Qed.

Lemma account_needs_digit (sn rs : list ascii) :
  existsb is_digit rs = false -> match_at account_pattern sn rs = None.
Proof.
  intros Hd. unfold match_at.
  assert (run account_pattern Some (MState sn rs None) = None) as ->;
    [|reflexivity].
  unfold account_pattern. cbn [run seen rest].
  destruct (xorb _ _); [|reflexivity].
  now apply digit_needed.
Qed.

Lemma scan_no_match (r : regex) (rs : list ascii) :
  (forall sn rs', existsb is_digit rs' = false -> match_at r sn rs' = None) ->
  existsb is_digit rs = false ->
  forall sn, hits r (scan r sn rs 0) = [].
Proof.
  intros Hr. induction rs as [|c rs IH]; intros Hd sn; cbn [scan].
  - now rewrite (Hr sn [] Hd).
  - rewrite (Hr sn (c :: rs) Hd). cbn [hits].
    simpl in Hd. apply orb_false_iff in Hd as [_ Hd]. now apply IH.
Qed.

(** X23. The [amount] key is present exactly when the message holds a
    digit; a message without a digit gives the empty mapping. *)
Theorem amount_iff_digit (message : string) :
  (is_Some (_extract_entities message !! "amount")
   <-> existsb is_digit (chars message) = true)
  /\ (existsb is_digit (chars message) = false ->
      _extract_entities message = ∅).
Proof.
  assert (existsb is_digit (chars message) = false ->
          _extract_entities message = ∅) as Hnone.
  { intros Hd. unfold _extract_entities, findall.
    rewrite (scan_no_match amount_pattern _ amount_needs_digit Hd).
    now rewrite (scan_no_match account_pattern _ account_needs_digit Hd). }
  split; [|exact Hnone].
  split.
  - intros [v Hv]. destruct (existsb is_digit (chars message)) eqn:Hd;
      [reflexivity|].
    rewrite (Hnone eq_refl), lookup_empty in Hv. discriminate.
  - intros Hd. destruct (extract_entities_lookup message) as [Ha _].
    rewrite Ha. pose proof (amount_found (chars message) Hd []) as Hne.
    fold (findall amount_pattern (chars message)) in Hne.
    destruct (findall amount_pattern (chars message)); [congruence|].
    cbn. eauto.
Qed.

Lemma amount_iff_digit_witness :
  _extract_entities "send money to my brother" = ∅.
Proof.
  apply (proj2 (amount_iff_digit "send money to my brother")).
  vm_compute. reflexivity.
Defined.

(** X24. The two keys are not independent: whenever an account number is
    extracted, an amount is extracted too (the digits of an account number
    also match the amount pattern). *)
Theorem account_number_implies_amount (message : string) :
  is_Some (_extract_entities message !! "account_number") ->
  is_Some (_extract_entities message !! "amount").
Proof.
  intros [v Hv].
  destruct (extract_entities_lookup message) as [Ha [Hb _]].
  destruct (existsb is_digit (chars message)) eqn:Hd.
  - rewrite Ha. pose proof (amount_found (chars message) Hd []) as Hne.
    fold (findall amount_pattern (chars message)) in Hne.
    destruct (findall amount_pattern (chars message)); [congruence|].
    cbn. eauto.
  - rewrite Hb in Hv. unfold findall in Hv.
    rewrite (scan_no_match account_pattern _ account_needs_digit Hd) in Hv.
    discriminate.
Qed.

Lemma account_number_implies_amount_witness :
  is_Some (_extract_entities "acct 123456789012" !! "amount").
Proof.
  apply account_number_implies_amount. vm_compute. eauto.
Defined.

(** The digits a repetition consumes, with the state handed on. *)
Lemma rep_exact_digits_result (n : nat) (k : kont) (st r : mstate) :
  rep_exact (run digit) n k st = Some r ->
  exists ds rs,
    rest st = ds ++ rs /\ length ds = n /\ forallb is_digit ds = true
    /\ k (MState (rev ds ++ seen st) rs (group1 st)) = Some r.
Proof.
  intros H. assert (is_Some (rep_exact (run digit) n k st)) as Hs by eauto.
  revert st H Hs. induction n as [|n IH]; intros [sn rs0 g] H _.
  - exists [], rs0. repeat split. exact H.
  - cbn [rep_exact] in H. rewrite run_class in H.
    destruct rs0 as [|c rs0]; [discriminate|].
    destruct (is_digit c) eqn:Hc; [|discriminate].
    destruct (IH _ H) as [ds [rs [Hrs [Hlen [Hds Hk]]]]]; [eauto|].
    cbn [rest seen group1] in *. subst rs0.
    exists (c :: ds), rs. simpl. rewrite Hc, Hlen.
    repeat split; [exact Hds|]. now rewrite <- app_assoc.
Qed.

Lemma rep_upto_digits_result (n : nat) (k : kont) (st r : mstate) :
  rep_upto (run digit) n k st = Some r ->
  exists ds rs,
    rest st = ds ++ rs /\ length ds <= n /\ forallb is_digit ds = true
    /\ k (MState (rev ds ++ seen st) rs (group1 st)) = Some r.
Proof.
  revert st. induction n as [|n IH]; intros [sn rs0 g] H.
  - exists [], rs0. repeat split; [simpl; lia | exact H].
  - rewrite rep_upto_S, run_class in H.
    destruct rs0 as [|c rs0].
    + exists [], []. repeat split; [simpl; lia | exact H].
    + destruct (is_digit c) eqn:Hc.
      * destruct (rep_upto (run digit) n k (MState (c :: sn) rs0 g))
          as [r'|] eqn:Hin.
        -- injection H as <-.
           destruct (IH _ Hin) as [ds [rs [Hrs [Hlen [Hds Hk]]]]].
           cbn [rest seen group1] in *. subst rs0.
           exists (c :: ds), rs. simpl. rewrite Hc.
           repeat split; [lia | exact Hds |]. now rewrite <- app_assoc.
        -- exists [], (c :: rs0). repeat split; [simpl; lia | exact H].
      * exists [], (c :: rs0). repeat split; [simpl; lia | exact H].
Qed.

(** A match of the account pattern is a run of 10 to 12 digits. *)
Lemma account_match_shape (sn rs : list ascii) (h : hit) :
  match_at account_pattern sn rs = Some h ->
  forallb is_digit (whole h) = true /\ 10 <= length (whole h) <= 12.
Proof.
  unfold match_at.
  destruct (run account_pattern Some (MState sn rs None)) as [st|] eqn:Hrun;
    [|discriminate].
  intros H. injection H as <-. cbn [whole].
  unfold account_pattern in Hrun.
  change (run (Cat Wordb (Cat (Rep 10 12 digit) Wordb)) Some ?s)
    with (if xorb (word_at (seen s)) (word_at (rest s))
          then rep_exact (run digit) 10
                 (rep_upto (run digit) (12 - 10) (run Wordb Some)) s
          else None) in Hrun.
  destruct (xorb _ _); [|discriminate].
  apply rep_exact_digits_result in Hrun
    as [ds1 [rs1 [_ [Hlen1 [Hd1 Hrun]]]]].
  apply rep_upto_digits_result in Hrun
    as [ds2 [rs2 [_ [Hlen2 [Hd2 Hrun]]]]].
  cbn [run seen rest group1] in Hrun.
  destruct (xorb _ _); [|discriminate]. injection Hrun as <-.
  cbn [seen].
  replace (length (rev ds2 ++ rev ds1 ++ sn) - length sn)
    with (length (rev ds2 ++ rev ds1))
    by (rewrite !length_app; lia).
  rewrite app_assoc, firstn_app, Nat.sub_diag, firstn_all. cbn [firstn].
  rewrite app_nil_r, rev_app_distr, !rev_involutive.
  rewrite forallb_app, Hd1, Hd2, length_app.
  cbn [Nat.sub] in Hlen2. split; [reflexivity | lia].
Qed.

Lemma scan_hits (r : regex) (P : list ascii -> Prop) :
  (forall sn rs h, match_at r sn rs = Some h -> P (report r h)) ->
  forall rs sn skip, Forall P (hits r (scan r sn rs skip)).
Proof.
  intros Hr. induction rs as [|c rs IH]; intros sn skip.
  - destruct skip; cbn [scan]; [|constructor].
    destruct (match_at r sn []) eqn:Hm; cbn [hits]; [|constructor].
    constructor; [now apply (Hr sn []) | constructor].
  - destruct skip; cbn [scan]; [|apply IH].
    destruct (match_at r sn (c :: rs)) eqn:Hm; cbn [hits]; [|apply IH].
    constructor; [now apply (Hr sn (c :: rs))|].
    destruct (length (whole h)); cbn [hits]; apply IH.
Qed.

(** X25. The extractor and the validator agree: an extracted account
    number is a string of 10 to 12 digits, which
    [validate_account_number] accepts. *)
Theorem extracted_account_number_valid (message : string) (v : pyobj) :
  _extract_entities message !! "account_number" = Some v ->
  exists account,
    v = PyStr account
    /\ forallb is_digit (chars account) = true
    /\ 10 <= String.length account <= 12
    /\ validate_account_number account = true.
Proof.
  destruct (extract_entities_lookup message) as [_ [Hb _]].
  rewrite Hb. intros Hv.
  pose proof (scan_hits account_pattern
                (fun m => forallb is_digit m = true /\ 10 <= length m <= 12)
                account_match_shape (chars message) [] 0) as Hall.
  fold (findall account_pattern (chars message)) in Hall.
  destruct (findall account_pattern (chars message)) as [|first others];
    [discriminate|].
  cbn in Hv. injection Hv as <-.
  apply Forall_cons in Hall as [[Hd Hlen] _].
  exists (str first). rewrite chars_str.
  split; [reflexivity|]. split; [exact Hd|].
  split.
  - rewrite <- (chars_str first) in Hlen. unfold chars in Hlen.
    revert Hlen. generalize (str first) as t.
    assert (forall t, length (list_ascii_of_string t) = String.length t) as Hl.
    { induction t as [|c t IH]; simpl; [reflexivity | now rewrite IH]. }
    intros t. now rewrite Hl.
  - apply validate_account_number_accepts. exists first.
    rewrite chars_str. auto.
Qed.

Lemma extracted_account_number_valid_witness :
  exists account,
    PyStr "1234567890" = PyStr account
    /\ forallb is_digit (chars account) = true
    /\ 10 <= String.length account <= 12
    /\ validate_account_number account = true.
Proof.
  apply (extracted_account_number_valid
           "Please send $1,200.50 to account 1234567890").
  vm_compute. reflexivity.
Defined.

End MoreExtraction.

(** ** The interactive loop *)

Section MainProperties.
Import SecurityValidator IntentClassifier ResponseGenerator FintechChatbot Main.

Lemma process_message_only_main_user (draw : nat) (message : pyobj)
    (w : world) :
  only_main_user w ->
  only_main_user (snd (process_message draw main_user_id message w)).
Proof.
  intros Hw other Hne. unfold process_message.
  rewrite serve_registry, lookup_insert_ne by congruence. now apply Hw.
Qed.

Lemma loop_only_main_user (draws : nat -> nat) (events : list event) :
  forall calls bot,
    only_main_user bot -> only_main_user (snd (loop draws calls events bot)).
Proof.
  induction events as [|[raw|] events IH]; intros calls bot Hbot;
    cbn [loop]; [exact Hbot | | exact Hbot].
  destruct (bool_decide (_ ∈ quit_words)).
  - pose proof (process_message_only_main_user (draws calls)
                  (PyStr "goodbye") bot Hbot) as H.
    destruct (process_message _ _ (PyStr "goodbye") bot) as [[r|e] bot'];
      exact H.
  - destruct (bool_decide (_ = "")).
    + specialize (IH calls bot Hbot).
      destruct (loop draws calls events bot) as [[e outs] bot']. exact IH.
    + pose proof (process_message_only_main_user (draws calls)
                    (PyStr (str (strip (chars raw)))) bot Hbot) as H.
      destruct (process_message _ _ (PyStr (str (strip (chars raw)))) bot)
        as [[r|e] bot']; [|exact H].
      specialize (IH (S calls) bot' H).
      destruct (loop draws (S calls) events bot') as [[e outs] bot''].
      exact IH.
Qed.

(** X26. [main] always cleans up: however the loop ends (quit word,
    interrupt, end of the input), the [finally] clause has ended the
    session, and the registry of the chatbot is empty. *)
Theorem main_ends_session (draws : nat -> nat) (events : list event) :
  active_sessions (snd (main draws events)) = ∅.
Proof.
  unfold main.
  pose proof (loop_only_main_user draws events 0 init) as Hloop.
  destruct (loop draws 0 events init) as [[e outs] bot]. cbn [snd] in Hloop.
  assert (only_main_user bot) as Hbot.
  { apply Hloop. intros other _. apply lookup_empty. }
  unfold end_session.
  destruct (active_sessions bot !! main_user_id) as [session|] eqn:Hs;
    cbn [snd]; apply map_eq; intros uid; rewrite lookup_empty.
  - cbn. destruct (decide (main_user_id = uid)) as [<-|Hne].
    + apply lookup_delete_eq.
    + rewrite lookup_delete_ne by exact Hne. apply Hbot. congruence.
  - destruct (decide (main_user_id = uid)) as [<-|Hne];
      [exact Hs | apply Hbot; congruence].
Qed.

Lemma process_message_never_fails (draw : nat) (uid : string)
    (message : pyobj) (w : world) :
  exists reply w',
    process_message draw uid message w = (Return reply, w').
Proof.
  destruct (process_message_returns draw uid message w) as [reply [Hr _]].
  destruct (process_message draw uid message w) as [o w'] eqn:Hp.
  cbn [fst] in Hr. subst o. eauto.
Qed.

(** X27. How [main] ends is decided by the input alone: by the first
    interrupt or quit line (a line that, stripped and lower-cased, is
    [quit], [exit] or [q]), and by [EOFError] when the input runs out
    before either; no call of [process_message] makes it fail. *)
Theorem main_ending (draws : nat -> nat) (events : list event) :
  fst (fst (main draws events)) = first_stop events.
Proof.
  unfold main.
  assert (forall calls bot,
            fst (fst (loop draws calls events bot)) = first_stop events)
    as Hloop.
  { induction events as [|[raw|] events IH]; intros calls bot;
      cbn [loop first_stop]; [reflexivity | | reflexivity].
    unfold quits. destruct (bool_decide (_ ∈ quit_words)).
    - destruct (process_message_never_fails (draws calls) main_user_id
                  (PyStr "goodbye") bot) as [r [bot' ->]]. reflexivity.
    - destruct (bool_decide (_ = "")).
      + specialize (IH calls bot).
        destruct (loop draws calls events bot) as [[e outs] bot'].
        exact IH.
      + destruct (process_message_never_fails (draws calls) main_user_id
                    (PyStr (str (strip (chars raw)))) bot) as [r [bot' ->]].
        specialize (IH (S calls) bot').
        destruct (loop draws (S calls) events bot') as [[e outs] bot''].
        exact IH. }
  specialize (Hloop 0 init).
  destruct (loop draws 0 events init) as [[e outs] bot].
  destruct (end_session main_user_id bot) as [u bot']. exact Hloop.
Qed.

(** X28. A quit line ends the conversation: the chatbot answers it with
    one of its goodbye texts, and what stands in the input after the line
    is never read. *)
Theorem main_quit (draws : nat -> nat) (calls : nat) (raw : string)
    (events : list event) (bot : world) :
  quits raw = true ->
  loop draws calls (Line raw :: events) bot = loop draws calls [Line raw] bot
  /\ exists reply bot',
      responses GOODBYE = Some
        [ "Thank you for using SecureBank! Have a great day!";
          "Goodbye! Feel free to reach out anytime you need assistance.";
          "Take care! Remember, I'm here 24/7 for your banking needs." ]
      /\ In reply
           [ "Thank you for using SecureBank! Have a great day!";
             "Goodbye! Feel free to reach out anytime you need assistance.";
             "Take care! Remember, I'm here 24/7 for your banking needs." ]
      /\ loop draws calls (Line raw :: events) bot
         = (Quit, [Prompt "You: "; Print ("Bot: " +:+ reply)], bot').
Proof.
  intros Hq. unfold quits in Hq. cbn [loop]. rewrite Hq.
  split; [reflexivity|].
  destruct (process_message_returns (draws calls) main_user_id
              (PyStr "goodbye") bot) as [reply [Hr [_ Hgen]]].
  destruct (process_message (draws calls) main_user_id (PyStr "goodbye") bot)
    as [o bot'] eqn:Hp.
  cbn [fst] in Hr. subst o.
  exists reply, bot'. split; [reflexivity|]. split; [|reflexivity].
  assert (sanitize_input (PyStr "goodbye") = "goodbye") as Hs
    by (vm_compute; reflexivity).
  rewrite Hs in Hgen.
  assert (classify "goodbye" = GOODBYE) as Hc by (vm_compute; reflexivity).
  rewrite Hc in Hgen. specialize (Hgen ltac:(discriminate)).
  rewrite own_response_unfold in Hgen.
  cbn -[choice] in Hgen.
  match type of Hgen with context [choice ?d [?a; ?b; ?c]] =>
    destruct (choice_three d a b c) as [Hch|[Hch|Hch]];
    rewrite Hch in Hgen; injection Hgen as <-; simpl; tauto
  end.
Qed.

Lemma main_quit_witness :
  loop (fun _ => 0) 0 [Line "  Exit "; Line "are you there?"] init
  = loop (fun _ => 0) 0 [Line "  Exit "] init.
Proof.
  apply (main_quit (fun _ => 0) 0 "  Exit " [Line "are you there?"] init).
  vm_compute. reflexivity.
Defined.

End MainProperties.
